(** * Vox2Words: the transcription pipeline of [App.tsx] and the Gemini client

    A shallow embedding of the pipeline logic of the React component
    [App] (src/App.tsx) and of [transcribeLyrics]
    (services/geminiService).  React state setters are write-only commands:
    a handler reads the values of the render it was created in (its
    closure) and emits setter calls and external effects in program order.
    A handler is therefore modelled as a computation in a writer/exception
    monad whose log is the sequence of actions it performs; the component
    state after (a prefix of) a handler is obtained by replaying the log.
    The view is reduced to the data it shows; markup and styling are not
    part of the model. *)

From Stdlib Require Import List NArith Bool String Ascii Sorted Lia.
Import ListNotations.
Local Open Scope N_scope.

(** ** JavaScript strings *)

(** A JavaScript string is a sequence of UTF-16 code units. *)
Definition jsstring := list N.

(** String literals of the source (all of them are ASCII). *)
Definition lit (s : string) : jsstring :=
  map N_of_ascii (list_ascii_of_string s).

(** Truthiness of a string: only the empty string is falsy. *)
Definition truthy (s : jsstring) : bool :=
  match s with [] => false | _ :: _ => true end.

(** Truthiness of [string | null]. *)
Definition truthy_opt (s : option jsstring) : bool :=
  match s with None => false | Some t => truthy t end.

(** ECMAScript [WhiteSpace] and [LineTerminator] code points, the set
    stripped by [String.prototype.trim]. *)
Definition isWhiteSpace (c : N) : bool :=
  (c =? 9) || (c =? 10) || (c =? 11) || (c =? 12) || (c =? 13) ||
  (c =? 32) || (c =? 160) || (c =? 5760) ||
  ((8192 <=? c) && (c <=? 8202)) ||
  (c =? 8232) || (c =? 8233) || (c =? 8239) || (c =? 8287) ||
  (c =? 12288) || (c =? 65279).

Fixpoint trimStart (s : jsstring) : jsstring :=
  match s with
  | [] => []
  | c :: r => if isWhiteSpace c then trimStart r else s
  end.

Definition trimEnd (s : jsstring) : jsstring := rev (trimStart (rev s)).

(** [String.prototype.trim]. *)
Definition trim (s : jsstring) : jsstring := trimEnd (trimStart s).

(** [s.split(sep)] for a one-character separator: the segments between the
    occurrences of [sep]; never the empty array. *)
Fixpoint split (sep : N) (s : jsstring) : list jsstring :=
  match s with
  | [] => [[]]
  | c :: r =>
      if c =? sep then [] :: split sep r
      else match split sep r with
           | [] => [[c]]
           | seg :: segs => (c :: seg) :: segs
           end
  end.

(** Array indexing [a[i]]; [None] is [undefined]. *)
Definition index {A : Type} (a : list A) (i : nat) : option A := nth_error a i.

(** ** Data model *)

(** Modelled from the spec: the enum [ProcessingStatus] of './types', which
    is not among the sources; App.tsx uses exactly the four members
    [IDLE], [PROCESSING], [SUCCESS] and [ERROR], the pipeline states
    Idle, Processing, Success and Error of the specification. *)
Inductive ProcessingStatus := IDLE | PROCESSING | SUCCESS | ERROR.

Definition status_eqb (a b : ProcessingStatus) : bool :=
  match a, b with
  | IDLE, IDLE | PROCESSING, PROCESSING | SUCCESS, SUCCESS | ERROR, ERROR => true
  | _, _ => false
  end.

(** The part of a DOM [File] the component looks at. *)
Record File := mkFile {
  name : jsstring;
  size : N
}.

(** The seven [useState] cells of [App]. *)
Record AppState := mkState {
  file : option File;
  audioSrc : option jsstring;
  status : ProcessingStatus;
  statusMessage : jsstring;
  lyrics : jsstring;
  error : option jsstring;
  progress : N
}.

(** The initial values given to [useState]. *)
Definition initialState : AppState :=
  {| file := None;
     audioSrc := None;
     status := IDLE;
     statusMessage := lit "Select an audio file to begin.";
     lyrics := [];
     error := None;
     progress := 0 |}.

(** Values that can be thrown or used to reject a promise. *)
Inductive Thrown :=
| ThrownError (message : jsstring)
    (** an instance of [Error] with its [message] *)
| ThrownProgressEvent (readerError : jsstring)
    (** the [ProgressEvent] a [FileReader] hands to [onerror];
        [readerError] is the message of [reader.error], which the event
        object itself does not carry *)
| ThrownOther.
    (** any other value that is not an [Error] *)

(** [e instanceof Error]. *)
Definition instanceofError (e : Thrown) : bool :=
  match e with ThrownError _ => true | _ => false end.

(** [e.message], read only behind an [instanceof Error] test. *)
Definition message_of (e : Thrown) : jsstring :=
  match e with ThrownError m => m | _ => [] end.

(** How the [FileReader] settles: [onload] with the data URL in
    [reader.result], or [onerror]. *)
Inductive ReadOutcome :=
| Loaded (result : jsstring)
| ReadFailed (readerError : jsstring).

(** How [ai.models.generateContent] settles: a response whose [text] is the
    given string, or a rejection.  (A failure of [response.text.trim()]
    itself would be a [TypeError], an [Error] instance raised inside the
    same [try], i.e. the [GenRejected (ThrownError _)] case.) *)
Inductive GenOutcome :=
| GenResponse (text : jsstring)
| GenRejected (reason : Thrown).

(** What the environment answers during one run of [handleSubmit]. *)
Record RunEnv := mkEnv {
  readOutcome : ReadOutcome;
  genOutcome : GenOutcome
}.

(** ** Actions: setter calls and external effects *)

Inductive Action :=
| SetFile (f : option File)
| SetAudioSrc (u : option jsstring)
| SetStatus (st : ProcessingStatus)
| SetStatusMessage (m : jsstring)
| SetLyrics (l : jsstring)
| SetError (e : option jsstring)
| SetProgress (p : N)
| ReadAsDataURL (f : File)
| Wait (ms : N)
| GenerateContent (data mimeType : option jsstring)
| ConsoleError (e : Thrown)
| RevokeObjectURL (u : jsstring)
| CreateObjectURL (f : File).

(** The effect of one action on the component state. *)
Definition apply_action (s : AppState) (a : Action) : AppState :=
  match a with
  | SetFile f => mkState f (audioSrc s) (status s) (statusMessage s) (lyrics s) (error s) (progress s)
  | SetAudioSrc u => mkState (file s) u (status s) (statusMessage s) (lyrics s) (error s) (progress s)
  | SetStatus st => mkState (file s) (audioSrc s) st (statusMessage s) (lyrics s) (error s) (progress s)
  | SetStatusMessage m => mkState (file s) (audioSrc s) (status s) m (lyrics s) (error s) (progress s)
  | SetLyrics l => mkState (file s) (audioSrc s) (status s) (statusMessage s) l (error s) (progress s)
  | SetError e => mkState (file s) (audioSrc s) (status s) (statusMessage s) (lyrics s) e (progress s)
  | SetProgress p => mkState (file s) (audioSrc s) (status s) (statusMessage s) (lyrics s) (error s) p
  | _ => s
  end.

(** The state after a sequence of actions. *)
Definition run (s : AppState) (acts : list Action) : AppState :=
  fold_left apply_action acts s.

(** ** The handler monad: an action log and an exception *)

Definition M (A : Type) : Type := (list Action * (Thrown + A))%type.

Definition ret {A} (a : A) : M A := ([], inr a).

Definition bind {A B} (m : M A) (k : A -> M B) : M B :=
  match m with
  | (l, inl e) => (l, inl e)
  | (l, inr a) => let (l', r) := k a in (l ++ l', r)
  end.

Definition throw {A} (e : Thrown) : M A := ([], inl e).

Definition emit (a : Action) : M unit := ([a], inr tt).

(** [try { m } catch (e) { h e }]. *)
Definition try_catch {A} (m : M A) (h : Thrown -> M A) : M A :=
  match m with
  | (l, inl e) => let (l', r) := h e in (l ++ l', r)
  | (l, inr a) => (l, inr a)
  end.

Notation "x <- m ;; k" := (bind m (fun x => k))
  (at level 61, m at next level, right associativity).
Notation "m ;; k" := (bind m (fun _ => k))
  (at level 61, right associativity).

Definition actions {A} (m : M A) : list Action := fst m.
Definition outcome {A} (m : M A) : Thrown + A := snd m.

(** ** geminiService: [transcribeLyrics] *)

Definition aiErrorPrefix : jsstring :=
  lit "An error occurred while communicating with the AI: ".
Definition unknownTranscriptionError : jsstring :=
  lit "An unknown error occurred during transcription.".

(** [await ai.models.generateContent(...)], then [response.text]. *)
Definition generateContent (data mimeType : option jsstring) (g : GenOutcome)
  : M jsstring :=
  emit (GenerateContent data mimeType) ;;
  match g with
  | GenResponse text => ret text
  | GenRejected reason => throw reason
  end.

Definition transcribeLyrics (audioBase64 mimeType : option jsstring)
  (g : GenOutcome) : M jsstring :=
  try_catch
    (text <- generateContent audioBase64 mimeType g ;;
     ret (trim text))
    (fun error =>
       emit (ConsoleError error) ;;
       if instanceofError error
       then throw (ThrownError (aiErrorPrefix ++ message_of error))
       else throw (ThrownError unknownTranscriptionError)).

(** ** App.tsx *)

Definition wait (ms : N) : M unit := emit (Wait ms).

(** The body of [reader.onload]: [result.split(';')[0].split(':')[1]] and
    [result.split(',')[1]] (59, 58 and 44 are the code units of the three
    separators); the pair is [(base64, mimeType)]. *)
Definition onload (result : jsstring) : option jsstring * option jsstring :=
  let mimeType :=
    match index (split 59 result) 0 with
    | Some head => index (split 58 head) 1
    | None => None
    end in
  let base64 := index (split 44 result) 1 in
  (base64, mimeType).

(** [fileToBase64]: the promise resolves from [onload] with the two pieces
    cut out of the data URL, and rejects from [onerror] with the event
    object the reader passes to the callback. *)
Definition fileToBase64 (f : File) (rd : ReadOutcome)
  : M (option jsstring * option jsstring) :=
  emit (ReadAsDataURL f) ;;
  match rd with
  | Loaded result => ret (onload result)
  | ReadFailed readerError => throw (ThrownProgressEvent readerError)
  end.

Definition selectPrompt : jsstring := lit "Select an audio file to begin.".
Definition oversizeMessage : jsstring :=
  lit "File is too large. Please select a file smaller than 50MB.".
Definition fallbackLyrics : jsstring :=
  lit "The AI could not find any lyrics in this audio file.".
Definition unexpectedError : jsstring := lit "An unexpected error occurred.".
Definition readingMessage : jsstring := lit "Reading audio file...".
Definition analyzingMessage : jsstring := lit "Analyzing vocals...".
Definition writingMessage : jsstring := lit "Writing lyrics...".
Definition noVocalsSentinel : jsstring := lit "No vocals found in this track.".

(** The size ceiling [50 * 1024 * 1024]. *)
Definition maxFileSize : N := 50 * 1024 * 1024.

Definition handleReset : M unit :=
  emit (SetFile None) ;;
  emit (SetAudioSrc None) ;;
  emit (SetLyrics []) ;;
  emit (SetError None) ;;
  emit (SetStatus IDLE) ;;
  emit (SetStatusMessage selectPrompt) ;;
  emit (SetProgress 0).

(** [handleFileChange]; [c] is the render the handler closes over,
    [files] is [event.target.files] and [url] the string that
    [URL.createObjectURL] returns. *)
Definition handleFileChange (c : AppState) (files : option (list File))
  (url : jsstring) : M unit :=
  match files with
  | Some (first :: _) =>
      if maxFileSize <? size first then
        emit (SetError (Some oversizeMessage)) ;;
        emit (SetStatus ERROR) ;;
        emit (SetFile None)
      else
        let newFile := first in
        handleReset ;;
        emit (SetFile (Some newFile)) ;;
        (if truthy_opt (audioSrc c)
         then match audioSrc c with
              | Some u => emit (RevokeObjectURL u)
              | None => ret tt
              end
         else ret tt) ;;
        emit (CreateObjectURL newFile) ;;
        emit (SetAudioSrc (Some url)) ;;
        emit (SetStatus IDLE)
  | _ => ret tt
  end.

(** The [try] block of [handleSubmit]. *)
Definition submitTry (f : File) (env : RunEnv) : M unit :=
  emit (SetStatusMessage readingMessage) ;;
  enc <- fileToBase64 f (readOutcome env) ;;
  emit (SetProgress 25) ;;
  wait 500 ;;
  emit (SetStatusMessage analyzingMessage) ;;
  emit (SetProgress 50) ;;
  wait 1500 ;;
  emit (SetStatusMessage writingMessage) ;;
  emit (SetProgress 75) ;;
  transcribedText <- transcribeLyrics (fst enc) (snd enc) (genOutcome env) ;;
  emit (SetProgress 100) ;;
  wait 500 ;;
  (if negb (truthy transcribedText)
   then emit (SetLyrics fallbackLyrics)
   else emit (SetLyrics transcribedText)) ;;
  emit (SetStatus SUCCESS).

(** The [catch] block of [handleSubmit]. *)
Definition submitCatch (e : Thrown) : M unit :=
  emit (ConsoleError e) ;;
  let errorMessage :=
    if instanceofError e then message_of e else unexpectedError in
  emit (SetError (Some errorMessage)) ;;
  emit (SetStatus ERROR) ;;
  emit (SetProgress 0).

(** [handleSubmit]; [c] is the render the callback closes over and [env]
    what the reader and the remote model answer. *)
Definition handleSubmit (c : AppState) (env : RunEnv) : M unit :=
  match file c with
  | None => ret tt
  | Some f =>
      emit (SetStatus PROCESSING) ;;
      emit (SetError None) ;;
      emit (SetLyrics []) ;;
      emit (SetProgress 0) ;;
      try_catch (submitTry f env) submitCatch
  end.

(** ** What the view offers

    The render function of [App] decides which handler can be invoked:
    the upload form (file input and TRANSCRIBE button) is rendered only
    while [showResults] is false, the file input is disabled while
    [isProcessing], the button while [!file || isProcessing]; the results
    screen, with its TRY AGAIN / START OVER button bound to
    [handleReset], is rendered only while [showResults]. *)

Definition isProcessing (s : AppState) : bool := status_eqb (status s) PROCESSING.

Definition showResults (s : AppState) : bool :=
  status_eqb (status s) SUCCESS || status_eqb (status s) ERROR.

Inductive Control := FileInput | TranscribeButton | ResetButton.

Definition rendered (s : AppState) (k : Control) : bool :=
  match k with
  | FileInput | TranscribeButton => negb (showResults s)
  | ResetButton => showResults s
  end.

Definition disabled (s : AppState) (k : Control) : bool :=
  match k with
  | FileInput => isProcessing s
  | TranscribeButton =>
      negb (match file s with Some _ => true | None => false end) || isProcessing s
  | ResetButton => false
  end.

Definition usable (s : AppState) (k : Control) : bool :=
  rendered s k && negb (disabled s k).

(** The three inbound events, each with what the environment supplies
    while its handler runs. *)
Inductive UserEvent :=
| SelectFiles (files : option (list File)) (url : jsstring)
| ClickTranscribe (env : RunEnv)
| ClickReset.

Definition control_of (ev : UserEvent) : Control :=
  match ev with
  | SelectFiles _ _ => FileInput
  | ClickTranscribe _ => TranscribeButton
  | ClickReset => ResetButton
  end.

Definition handler (s : AppState) (ev : UserEvent) : M unit :=
  match ev with
  | SelectFiles files url => handleFileChange s files url
  | ClickTranscribe env => handleSubmit s env
  | ClickReset => handleReset
  end.

(** The state once the handler of [ev], invoked in render [s], has run to
    completion. *)
Definition dispatch (s : AppState) (ev : UserEvent) : AppState :=
  run s (actions (handler s ev)).

(** Handlers invoked one after the other, whatever the view shows. *)
Definition dispatch_all (s : AppState) (evs : list UserEvent) : AppState :=
  fold_left dispatch evs s.

(** States in which the component comes to rest when every event is
    delivered through a control the view renders and enables. *)
Inductive reachable : AppState -> Prop :=
| reachable_initial : reachable initialState
| reachable_event s ev :
    reachable s ->
    usable s (control_of ev) = true ->
    reachable (dispatch s ev).

(** Every state the component passes through, including those in the
    middle of a handler. *)
Inductive observable : AppState -> Prop :=
| observable_at_rest s : reachable s -> observable s
| observable_during s ev pre post :
    reachable s ->
    usable s (control_of ev) = true ->
    actions (handler s ev) = pre ++ post ->
    observable (run s pre).

(** ** Reading a run *)

(** The values passed to [setProgress], in program order. *)
Fixpoint progress_updates (acts : list Action) : list N :=
  match acts with
  | [] => []
  | SetProgress p :: r => p :: progress_updates r
  | _ :: r => progress_updates r
  end.

Definition is_stage_action (a : Action) : bool :=
  match a with
  | SetStatusMessage _ | SetProgress _ | ReadAsDataURL _ | Wait _
  | GenerateContent _ _ => true
  | _ => false
  end.

(** Equality test on the actions that are looked for in a run: stage
    messages, progress values and delays. *)
Definition action_eqb (a b : Action) : bool :=
  match a, b with
  | SetStatusMessage m, SetStatusMessage m' => if list_eq_dec N.eq_dec m m' then true else false
  | SetProgress p, SetProgress p' => p =? p'
  | Wait n, Wait n' => n =? n'
  | _, _ => false
  end.

(** [before a b acts]: [a] occurs in [acts] and no [b] occurs ahead of its
    first occurrence. *)
Fixpoint before (a b : Action) (acts : list Action) : bool :=
  match acts with
  | [] => false
  | x :: r => if action_eqb x a then true
              else if action_eqb x b then false
              else before a b r
  end.

(** The actions that follow the first occurrence of [a]. *)
Fixpoint after (a : Action) (acts : list Action) : list Action :=
  match acts with
  | [] => []
  | x :: r => if action_eqb x a then r else after a r
  end.

(** After the stage message [msg] is set, a delay runs before the progress
    is set to [p]. *)
Definition delay_between (msg : jsstring) (p : N) (acts : list Action) : Prop :=
  exists ms,
    before (Wait ms) (SetProgress p) (after (SetStatusMessage msg) acts) = true.

(** Encoding attempts and network calls. *)
Definition is_external (a : Action) : bool :=
  match a with
  | ReadAsDataURL _ | GenerateContent _ _ => true
  | _ => false
  end.

Definition enters_processing (a : Action) : bool :=
  match a with
  | SetStatus PROCESSING => true
  | _ => false
  end.

(** The stage actions of a run in which nothing fails, after the initial
    [setProgress(0)]. *)
Definition stage_plan (f : File) (enc : option jsstring * option jsstring)
  : list Action :=
  [ SetStatusMessage readingMessage; ReadAsDataURL f; SetProgress 25; Wait 500;
    SetStatusMessage analyzingMessage; SetProgress 50; Wait 1500;
    SetStatusMessage writingMessage; SetProgress 75;
    GenerateContent (fst enc) (snd enc); SetProgress 100; Wait 500 ].

(** The message a failure carries: the [message] of an [Error], and for a
    failed read the message of the reader's error. *)
Definition failure_message (e : Thrown) : option jsstring :=
  match e with
  | ThrownError m => Some m
  | ThrownProgressEvent readerError => Some readerError
  | ThrownOther => None
  end.

(** Points at which the handler hands control back (an [await]). *)
Definition is_suspension (a : Action) : bool :=
  match a with
  | ReadAsDataURL _ | Wait _ | GenerateContent _ _ => true
  | _ => false
  end.

(** What the progress display shows during each suspension of a handler
    started in state [s]: the awaited action with the stage message and
    the progress value in force when it starts. *)
Fixpoint suspensions (s : AppState) (acts : list Action)
  : list (Action * jsstring * N) :=
  match acts with
  | [] => []
  | a :: r =>
      (if is_suspension a then [(a, statusMessage s, progress s)] else [])
        ++ suspensions (apply_action s a) r
  end.

(** [lyrics] and [error] both hold a non-empty value. *)
Definition both_set (s : AppState) : bool :=
  truthy (lyrics s) && truthy_opt (error s).

(** ** The view *)

(** What [App] puts on the screen, reduced to the data it shows: the
    error view and the lyrics view of [ResultsScreen], and the upload
    form. *)
Inductive View :=
| ErrorView (shownError : jsstring)
| LyricsView (player : option jsstring) (shownLyrics : jsstring)
| UploadView (browseLabel : jsstring) (fileName : option jsstring)
    (inputDisabled : bool) (buttonLabel : jsstring) (buttonDisabled : bool)
    (progressLine : option (jsstring * N)).

(** [ResultsScreen]: [if (error)] the error view, otherwise the lyrics
    with the audio player when [audioSrc] is truthy. *)
Definition ResultsScreen (l : jsstring) (e a : option jsstring) : View :=
  match e with
  | Some m => if truthy m then ErrorView m
              else LyricsView (if truthy_opt a then a else None) l
  | None => LyricsView (if truthy_opt a then a else None) l
  end.

(** The JSX returned by [App]. *)
Definition App (s : AppState) : View :=
  if showResults s then ResultsScreen (lyrics s) (error s) (audioSrc s)
  else
    UploadView
      (match file s with Some _ => lit "CHANGE FILE" | None => lit "BROWSE FILE" end)
      (match file s with Some f => Some (name f) | None => None end)
      (isProcessing s)
      (if isProcessing s then lit "TRANSCRIBING..." else lit "TRANSCRIBE")
      (negb (match file s with Some _ => true | None => false end) || isProcessing s)
      (if isProcessing s then Some (statusMessage s, progress s) else None).

(** What [handleCopy] of [ResultsScreen] does. *)
Inductive CopyAction :=
| ClipboardWriteText (t : jsstring)
| SetCopied (b : bool)
| SetTimeoutSetCopied (ms : N) (b : bool).
    (** [setTimeout(() => setCopied(b), ms)] *)

Definition handleCopy (l : jsstring) : list CopyAction :=
  if truthy l
  then [ClipboardWriteText l; SetCopied true; SetTimeoutSetCopied 2000 false]
  else [].

(** ** The object URL effect *)

(** [Object.is] on two values of [audioSrc]. *)
Definition audioSrc_eqb (a b : option jsstring) : bool :=
  match a, b with
  | None, None => true
  | Some u, Some v => if list_eq_dec N.eq_dec u v then true else false
  | _, _ => false
  end.

(** The cleanup of [useEffect(..., [audioSrc])]: when a commit changes
    [audioSrc], the cleanup created for the previous value runs and
    revokes it if it is truthy. *)
Definition audioSrcCleanup (prev next : option jsstring) : list Action :=
  if audioSrc_eqb prev next then []
  else match prev with
       | Some u => if truthy u then [RevokeObjectURL u] else []
       | None => []
       end.

(** Everything one event makes happen: the handler, then the effect
    cleanup of the commit. *)
Definition commit (s : AppState) (ev : UserEvent) : list Action :=
  actions (handler s ev)
    ++ audioSrcCleanup (audioSrc s) (audioSrc (dispatch s ev)).

(** A session: the state at rest together with everything done so far. *)
Inductive session : AppState -> list Action -> Prop :=
| session_start : session initialState []
| session_event s log ev :
    session s log ->
    usable s (control_of ev) = true ->
    session (dispatch s ev) (log ++ commit s ev).

(** The URLs handed to [URL.revokeObjectURL], in order. *)
Fixpoint revocations (acts : list Action) : list jsstring :=
  match acts with
  | [] => []
  | RevokeObjectURL u :: r => u :: revocations r
  | _ :: r => revocations r
  end.

(** The delays awaited, in order. *)
Fixpoint delays (acts : list Action) : list N :=
  match acts with
  | [] => []
  | Wait ms :: r => ms :: delays r
  | _ :: r => delays r
  end.

Definition is_read (a : Action) : bool :=
  match a with ReadAsDataURL _ => true | _ => false end.

Definition is_request (a : Action) : bool :=
  match a with GenerateContent _ _ => true | _ => false end.

(** [c] does not occur in [s]. *)
Definition free_of (c : N) (s : jsstring) : bool :=
  forallb (fun x => negb (x =? c)) s.

(** The states in which a handler started in [s] is suspended, one for
    each of its [await]s. *)
Fixpoint suspended_in (s : AppState) (acts : list Action) : list AppState :=
  match acts with
  | [] => []
  | a :: r =>
      (if is_suspension a then [s] else []) ++ suspended_in (apply_action s a) r
  end.

(** The shape of a state at rest, by status. *)
Definition well_shaped (s : AppState) : Prop :=
  match status s with
  | IDLE =>
      lyrics s = [] /\ error s = None /\ progress s = 0 /\
      statusMessage s = selectPrompt /\
      (file s = None <-> audioSrc s = None)
  | PROCESSING => False
  | SUCCESS =>
      lyrics s <> [] /\ error s = None /\ progress s = 100 /\
      file s <> None /\ audioSrc s <> None
  | ERROR =>
      (exists m, error s = Some m /\ m <> []) /\ lyrics s = [] /\ progress s = 0
  end.

(** A check that no prefix of [acts] leaves both fields set; [le] and [en]
    say whether [lyrics] is empty and whether [error] is empty when the
    actions start. *)
Fixpoint never_both (le en : bool) (acts : list Action) : bool :=
  (le || en) &&
  match acts with
  | [] => true
  | SetLyrics l :: r => never_both (negb (truthy l)) en r
  | SetError e :: r => never_both le (negb (truthy_opt e)) r
  | _ :: r => never_both le en r
  end.

(** What holds of a state in which the component is at rest. *)
Definition at_rest (s : AppState) : Prop :=
  status s <> PROCESSING /\
  (status s = IDLE -> lyrics s = [] /\ error s = None) /\
  both_set s = false.

(** ** Facts about strings *)

Lemma trimStart_whitespace (s : jsstring) :
  forallb isWhiteSpace s = true -> trimStart s = [].
Proof.
  induction s as [|c r IH]; simpl; [reflexivity|].
  intros H. apply andb_true_iff in H as [Hc Hr].
  rewrite Hc. exact (IH Hr).
Qed.

Lemma trim_whitespace (s : jsstring) :
  forallb isWhiteSpace s = true -> trim s = [].
Proof.
  intros H. unfold trim, trimEnd.
  rewrite (trimStart_whitespace s H). reflexivity.
Qed.

Lemma trim_nil : trim [] = [].
Proof. reflexivity. Qed.

(** ** One run of [handleSubmit], case by case *)

Section Submit.
Variables (c : AppState) (f : File) (env : RunEnv).
Hypothesis Hfile : file c = Some f.

Lemma transcribeLyrics_response b m text :
  transcribeLyrics b m (GenResponse text)
  = ([GenerateContent b m], inr (trim text)).
Proof. reflexivity. Qed.

Lemma transcribeLyrics_rejected b m reason :
  transcribeLyrics b m (GenRejected reason)
  = ([GenerateContent b m; ConsoleError reason],
     inl (ThrownError (if instanceofError reason
                       then aiErrorPrefix ++ message_of reason
                       else unknownTranscriptionError))).
Proof. destruct reason; reflexivity. Qed.

(** What [transcribeLyrics] returns is the trimmed text of a response. *)
Lemma transcribeLyrics_returns b m t :
  outcome (transcribeLyrics b m (genOutcome env)) = inr t ->
  exists text, genOutcome env = GenResponse text /\ trim text = t.
Proof.
  destruct (genOutcome env) as [text|reason].
  - rewrite transcribeLyrics_response. simpl. intros [= <-]. now exists text.
  - rewrite transcribeLyrics_rejected. discriminate.
Qed.

Lemma submit_actions_success result text :
  readOutcome env = Loaded result ->
  genOutcome env = GenResponse text ->
  handleSubmit c env
  = ([SetStatus PROCESSING; SetError None; SetLyrics []; SetProgress 0]
       ++ stage_plan f (onload result)
       ++ [SetLyrics (if truthy (trim text) then trim text else fallbackLyrics);
           SetStatus SUCCESS],
     inr tt).
Proof.
  intros Hr Hg. unfold handleSubmit, submitTry. rewrite Hfile, Hr, Hg.
  destruct (trim text) eqn:E.
  - unfold transcribeLyrics, generateContent, fileToBase64. cbn -[onload lit stage_plan trim].
    rewrite E. reflexivity.
  - unfold transcribeLyrics, generateContent, fileToBase64. cbn -[onload lit stage_plan trim].
    rewrite E. reflexivity.
Qed.

Lemma submit_actions_read_failed readerError :
  readOutcome env = ReadFailed readerError ->
  handleSubmit c env
  = ([SetStatus PROCESSING; SetError None; SetLyrics []; SetProgress 0;
      SetStatusMessage readingMessage; ReadAsDataURL f;
      ConsoleError (ThrownProgressEvent readerError);
      SetError (Some unexpectedError); SetStatus ERROR; SetProgress 0],
     inr tt).
Proof.
  intros Hr. unfold handleSubmit, submitTry. rewrite Hfile, Hr. reflexivity.
Qed.

Lemma submit_actions_gen_rejected result reason :
  readOutcome env = Loaded result ->
  genOutcome env = GenRejected reason ->
  handleSubmit c env
  = ([SetStatus PROCESSING; SetError None; SetLyrics []; SetProgress 0]
       ++ firstn 10 (stage_plan f (onload result))
       ++ [ConsoleError reason;
           ConsoleError (ThrownError (if instanceofError reason
                                      then aiErrorPrefix ++ message_of reason
                                      else unknownTranscriptionError));
           SetError (Some (if instanceofError reason
                           then aiErrorPrefix ++ message_of reason
                           else unknownTranscriptionError));
           SetStatus ERROR; SetProgress 0],
     inr tt).
Proof.
  intros Hr Hg. unfold handleSubmit, submitTry. rewrite Hfile, Hr, Hg.
  destruct reason; reflexivity.
Qed.

(** The three ways a run can go. *)
Lemma run_cases :
  (exists result text,
      readOutcome env = Loaded result /\ genOutcome env = GenResponse text)
  \/ (exists readerError, readOutcome env = ReadFailed readerError)
  \/ (exists result reason,
      readOutcome env = Loaded result /\ genOutcome env = GenRejected reason).
Proof.
  destruct (readOutcome env) as [result|re].
  - destruct (genOutcome env) as [text|reason].
    + left. now exists result, text.
    + right; right. now exists result, reason.
  - right; left. now exists re.
Qed.

(** The state a successful run ends in. *)
Lemma submit_final_success result text :
  readOutcome env = Loaded result ->
  genOutcome env = GenResponse text ->
  run c (actions (handleSubmit c env))
  = {| file := file c; audioSrc := audioSrc c; status := SUCCESS;
       statusMessage := writingMessage;
       lyrics := if truthy (trim text) then trim text else fallbackLyrics;
       error := None; progress := 100 |}.
Proof.
  intros Hr Hg. rewrite (submit_actions_success result text Hr Hg). reflexivity.
Qed.

Lemma submit_final_read_failed readerError :
  readOutcome env = ReadFailed readerError ->
  run c (actions (handleSubmit c env))
  = {| file := file c; audioSrc := audioSrc c; status := ERROR;
       statusMessage := readingMessage; lyrics := [];
       error := Some unexpectedError; progress := 0 |}.
Proof.
  intros Hr. rewrite (submit_actions_read_failed readerError Hr). reflexivity.
Qed.

Lemma submit_final_gen_rejected result reason :
  readOutcome env = Loaded result ->
  genOutcome env = GenRejected reason ->
  run c (actions (handleSubmit c env))
  = {| file := file c; audioSrc := audioSrc c; status := ERROR;
       statusMessage := writingMessage; lyrics := [];
       error := Some (if instanceofError reason
                      then aiErrorPrefix ++ message_of reason
                      else unknownTranscriptionError);
       progress := 0 |}.
Proof.
  intros Hr Hg. rewrite (submit_actions_gen_rejected result reason Hr Hg). reflexivity.
Qed.
End Submit.

Lemma handleSubmit_no_file (c : AppState) (env : RunEnv) :
  file c = None -> handleSubmit c env = ret tt.
Proof. intros H. unfold handleSubmit. now rewrite H. Qed.

Lemma fallbackLyrics_nonempty : fallbackLyrics <> [].
Proof. discriminate. Qed.

(** ** Reset *)

(** C4: [handleReset], called in any state, leaves the component in
    [IDLE] with empty lyrics, a null error, progress 0 and no file
    selected (and it cannot fail). *)
Theorem reset_yields_idle (s : AppState) :
  let s' := run s (actions handleReset) in
  outcome handleReset = inr tt /\
  status s' = IDLE /\ lyrics s' = [] /\ error s' = None /\
  progress s' = 0 /\ file s' = None.
Proof. cbv zeta. repeat split. Qed.

(** ** Oversize files *)

(** C2: when the selected file is larger than 52,428,800 bytes,
    [handleFileChange] never sets the status to [PROCESSING], starts
    neither an encoding nor a network call, and leaves the component in
    [ERROR] with the oversize message and no file selected; a submission
    from that state does nothing at all. *)
Theorem oversize_file_rejected (c : AppState) (first : File)
  (rest : list File) (url : jsstring) :
  52428800 < size first ->
  let m := handleFileChange c (Some (first :: rest)) url in
  let s' := run c (actions m) in
  existsb enters_processing (actions m) = false /\
  existsb is_external (actions m) = false /\
  status s' = ERROR /\ error s' = Some oversizeMessage /\ file s' = None /\
  forall env, handleSubmit s' env = ret tt.
Proof.
  intros Hsize. cbv zeta. unfold handleFileChange.
  replace (maxFileSize <? size first) with true
    by (symmetry; apply N.ltb_lt; exact Hsize).
  repeat split.
Qed.

Lemma oversize_file_rejected_witness :
  52428800 < size (mkFile (lit "concert.wav") 60000000) /\
  status (run initialState
            (actions (handleFileChange initialState
                        (Some [mkFile (lit "concert.wav") 60000000])
                        (lit "blob:1")))) = ERROR.
Proof.
  split; [reflexivity|].
  apply (oversize_file_rejected initialState
           (mkFile (lit "concert.wav") 60000000) [] (lit "blob:1")).
  reflexivity.
Defined.

(** ** Results of a run *)

(** C5: if [transcribeLyrics] returns exactly the sentinel
    "No vocals found in this track.", the run ends in [SUCCESS] and
    [lyrics] is that very string. *)
Theorem sentinel_passed_through (c : AppState) (f : File) (env : RunEnv)
  (result : jsstring) :
  file c = Some f ->
  readOutcome env = Loaded result ->
  outcome (transcribeLyrics (fst (onload result)) (snd (onload result))
             (genOutcome env)) = inr noVocalsSentinel ->
  let s' := run c (actions (handleSubmit c env)) in
  status s' = SUCCESS /\ lyrics s' = noVocalsSentinel.
Proof.
  intros Hf Hr Ht.
  destruct (transcribeLyrics_returns env _ _ _ Ht) as (text & Hg & Htrim).
  cbv zeta. rewrite (submit_final_success c f env Hf result text Hr Hg).
  rewrite Htrim. split; reflexivity.
Qed.

Lemma sentinel_passed_through_witness :
  lyrics (run (mkState (Some (mkFile (lit "song.mp3") 2000000)) None IDLE
                 selectPrompt [] None 0)
            (actions (handleSubmit
                        (mkState (Some (mkFile (lit "song.mp3") 2000000)) None
                           IDLE selectPrompt [] None 0)
                        (mkEnv (Loaded (lit "data:audio/mpeg;base64,QUJD"))
                           (GenResponse noVocalsSentinel)))))
  = noVocalsSentinel.
Proof.
  apply (sentinel_passed_through _ (mkFile (lit "song.mp3") 2000000)
           (mkEnv (Loaded (lit "data:audio/mpeg;base64,QUJD"))
              (GenResponse noVocalsSentinel))
           (lit "data:audio/mpeg;base64,QUJD")); reflexivity.
Defined.

(** C6: if [transcribeLyrics] returns the empty string, the run ends in
    [SUCCESS] and [lyrics] is the fallback message
    "The AI could not find any lyrics in this audio file.", which is not
    the empty string. *)
Theorem empty_result_gives_fallback (c : AppState) (f : File) (env : RunEnv)
  (result : jsstring) :
  file c = Some f ->
  readOutcome env = Loaded result ->
  outcome (transcribeLyrics (fst (onload result)) (snd (onload result))
             (genOutcome env)) = inr [] ->
  let s' := run c (actions (handleSubmit c env)) in
  status s' = SUCCESS /\ lyrics s' = fallbackLyrics /\ lyrics s' <> [].
Proof.
  intros Hf Hr Ht.
  destruct (transcribeLyrics_returns env _ _ _ Ht) as (text & Hg & Htrim).
  cbv zeta. rewrite (submit_final_success c f env Hf result text Hr Hg).
  rewrite Htrim. repeat split. exact fallbackLyrics_nonempty.
Qed.

Lemma empty_result_gives_fallback_witness :
  lyrics (run (mkState (Some (mkFile (lit "song.mp3") 2000000)) None IDLE
                 selectPrompt [] None 0)
            (actions (handleSubmit
                        (mkState (Some (mkFile (lit "song.mp3") 2000000)) None
                           IDLE selectPrompt [] None 0)
                        (mkEnv (Loaded (lit "data:audio/mpeg;base64,QUJD"))
                           (GenResponse [])))))
  = fallbackLyrics.
Proof.
  apply (empty_result_gives_fallback _ (mkFile (lit "song.mp3") 2000000)
           (mkEnv (Loaded (lit "data:audio/mpeg;base64,QUJD")) (GenResponse []))
           (lit "data:audio/mpeg;base64,QUJD")); reflexivity.
Defined.

(** C10: if the text of the model's response consists of whitespace only,
    [transcribeLyrics] returns the empty string and the run ends exactly
    where a run with an empty response ends: in [SUCCESS], with [lyrics]
    the fallback message. *)
Theorem whitespace_response_gives_fallback (c : AppState) (f : File)
  (env : RunEnv) (result text : jsstring) :
  file c = Some f ->
  readOutcome env = Loaded result ->
  genOutcome env = GenResponse text ->
  forallb isWhiteSpace text = true ->
  let s' := run c (actions (handleSubmit c env)) in
  outcome (transcribeLyrics (fst (onload result)) (snd (onload result))
             (genOutcome env)) = inr [] /\
  status s' = SUCCESS /\ lyrics s' = fallbackLyrics /\
  s' = run c (actions (handleSubmit c (mkEnv (readOutcome env) (GenResponse [])))).
Proof.
  intros Hf Hr Hg Hw. cbv zeta.
  rewrite (submit_final_success c f env Hf result text Hr Hg).
  rewrite (submit_final_success c f (mkEnv (readOutcome env) (GenResponse []))
             Hf result [] Hr eq_refl).
  rewrite Hg, transcribeLyrics_response, (trim_whitespace text Hw).
  repeat split.
Qed.

Lemma whitespace_response_gives_fallback_witness :
  lyrics (run (mkState (Some (mkFile (lit "song.mp3") 2000000)) None IDLE
                 selectPrompt [] None 0)
            (actions (handleSubmit
                        (mkState (Some (mkFile (lit "song.mp3") 2000000)) None
                           IDLE selectPrompt [] None 0)
                        (mkEnv (Loaded (lit "data:audio/mpeg;base64,QUJD"))
                           (GenResponse [32; 10; 9; 160; 8232])))))
  = fallbackLyrics.
Proof.
  apply (whitespace_response_gives_fallback _ (mkFile (lit "song.mp3") 2000000)
           (mkEnv (Loaded (lit "data:audio/mpeg;base64,QUJD"))
              (GenResponse [32; 10; 9; 160; 8232]))
           (lit "data:audio/mpeg;base64,QUJD") [32; 10; 9; 160; 8232]);
    reflexivity.
Defined.

(** ** Failures *)

Section Failures.
Variables (c : AppState) (f : File) (env : RunEnv).
Hypothesis Hfile : file c = Some f.

Lemma submitTry_read_failed readerError :
  readOutcome env = ReadFailed readerError ->
  outcome (submitTry f env) = inl (ThrownProgressEvent readerError).
Proof. intros Hr. unfold submitTry. rewrite Hr. reflexivity. Qed.

Lemma submitTry_loaded result :
  readOutcome env = Loaded result ->
  outcome (submitTry f env)
  = match outcome (transcribeLyrics (fst (onload result)) (snd (onload result))
                     (genOutcome env)) with
    | inl e => inl e
    | inr _ => inr tt
    end.
Proof.
  intros Hr. unfold submitTry. rewrite Hr.
  destruct (genOutcome env) as [text|reason].
  - rewrite transcribeLyrics_response.
    cbn -[onload lit trim]. destruct (trim text); reflexivity.
  - destruct reason; reflexivity.
Qed.

(** C7: when the remote call fails with an [Error] whose message is [m],
    the run ends in [ERROR] and the error message is
    "An error occurred while communicating with the AI: " followed by [m];
    when it fails with a value that is not an [Error], the error message is
    the fixed "An unknown error occurred during transcription.". *)
Theorem remote_failure_reported (result : jsstring) (reason : Thrown) :
  readOutcome env = Loaded result ->
  genOutcome env = GenRejected reason ->
  let s' := run c (actions (handleSubmit c env)) in
  status s' = ERROR /\
  (forall m, reason = ThrownError m -> error s' = Some (aiErrorPrefix ++ m)) /\
  (instanceofError reason = false -> error s' = Some unknownTranscriptionError).
Proof.
  intros Hr Hg. cbv zeta.
  rewrite (submit_final_gen_rejected c f env Hfile result reason Hr Hg).
  split; [reflexivity|]. split.
  - intros m ->. reflexivity.
  - intros ->. reflexivity.
Qed.

(** C9, as the code has it: whenever the [try] block of a run fails, the
    run ends in [ERROR] with progress 0 and no lyrics.  If the read
    succeeded, the failure is the [Error] thrown by [transcribeLyrics] and
    the error message is its message; if the read failed, the rejection
    value is the reader's event, not an [Error], and the error message is
    the fixed "An unexpected error occurred.". *)
Theorem failure_ends_in_error (e : Thrown) :
  outcome (submitTry f env) = inl e ->
  let s' := run c (actions (handleSubmit c env)) in
  status s' = ERROR /\ progress s' = 0 /\ lyrics s' = [] /\
  (forall result, readOutcome env = Loaded result ->
     outcome (transcribeLyrics (fst (onload result)) (snd (onload result))
                (genOutcome env)) = inl e /\
     instanceofError e = true /\ error s' = Some (message_of e)) /\
  (forall readerError, readOutcome env = ReadFailed readerError ->
     e = ThrownProgressEvent readerError /\ error s' = Some unexpectedError).
Proof.
  intros He. cbv zeta.
  destruct (readOutcome env) as [result|re] eqn:Hr.
  - rewrite (submitTry_loaded result Hr) in He.
    destruct (genOutcome env) as [text|reason] eqn:Hg.
    + rewrite transcribeLyrics_response in He. discriminate.
    + rewrite (submit_final_gen_rejected c f env Hfile result reason Hr Hg).
      rewrite transcribeLyrics_rejected in He. cbn [outcome snd] in He.
      injection He as <-.
      split; [reflexivity|]. split; [reflexivity|]. split; [reflexivity|]. split.
      * intros result' [= <-]. rewrite transcribeLyrics_rejected.
        repeat split.
      * discriminate.
  - rewrite (submitTry_read_failed re Hr) in He. injection He as <-.
    rewrite (submit_final_read_failed c f env Hfile re Hr).
    split; [reflexivity|]. split; [reflexivity|]. split; [reflexivity|]. split.
    + discriminate.
    + intros re' [= <-]. split; reflexivity.
Qed.
End Failures.

Lemma remote_failure_reported_witness :
  error (run (mkState (Some (mkFile (lit "song.mp3") 2000000)) None IDLE
                selectPrompt [] None 0)
           (actions (handleSubmit
                       (mkState (Some (mkFile (lit "song.mp3") 2000000)) None
                          IDLE selectPrompt [] None 0)
                       (mkEnv (Loaded (lit "data:audio/mpeg;base64,QUJD"))
                          (GenRejected (ThrownError (lit "quota exceeded")))))))
  = Some (lit "An error occurred while communicating with the AI: quota exceeded").
Proof.
  destruct (remote_failure_reported
              (mkState (Some (mkFile (lit "song.mp3") 2000000)) None IDLE
                 selectPrompt [] None 0)
              (mkFile (lit "song.mp3") 2000000)
              (mkEnv (Loaded (lit "data:audio/mpeg;base64,QUJD"))
                 (GenRejected (ThrownError (lit "quota exceeded"))))
              eq_refl
              (lit "data:audio/mpeg;base64,QUJD")
              (ThrownError (lit "quota exceeded")) eq_refl eq_refl)
    as (_ & H & _).
  exact (H (lit "quota exceeded") eq_refl).
Defined.

Lemma failure_ends_in_error_witness :
  status (run (mkState (Some (mkFile (lit "song.mp3") 2000000)) None IDLE
                 selectPrompt [] None 0)
            (actions (handleSubmit
                        (mkState (Some (mkFile (lit "song.mp3") 2000000)) None
                           IDLE selectPrompt [] None 0)
                        (mkEnv (ReadFailed (lit "The file could not be read."))
                           (GenResponse (lit "la"))))))
  = ERROR.
Proof.
  apply (failure_ends_in_error
           (mkState (Some (mkFile (lit "song.mp3") 2000000)) None IDLE
              selectPrompt [] None 0)
           (mkFile (lit "song.mp3") 2000000)
           (mkEnv (ReadFailed (lit "The file could not be read."))
              (GenResponse (lit "la")))
           eq_refl
           (ThrownProgressEvent (lit "The file could not be read."))
           eq_refl).
Defined.

(** C9 as stated fails for a failed read: the reader fails with the message
    "The file could not be read.", the [try] block raises the reader's
    event, and the run ends in [ERROR] with the fixed text
    "An unexpected error occurred." as error message instead of the
    failure's message. *)
Lemma read_failure_message_not_reported :
  let c := mkState (Some (mkFile (lit "song.mp3") 2000000)) None IDLE
             selectPrompt [] None 0 in
  let env := mkEnv (ReadFailed (lit "The file could not be read."))
               (GenResponse (lit "la")) in
  let s' := run c (actions (handleSubmit c env)) in
  exists e,
    outcome (submitTry (mkFile (lit "song.mp3") 2000000) env) = inl e /\
    status s' = ERROR /\
    error s' = Some (lit "An unexpected error occurred.") /\
    error s' <> failure_message e.
Proof.
  cbv zeta. exists (ThrownProgressEvent (lit "The file could not be read.")).
  repeat split. discriminate.
Qed.

(** ** Progress within a run *)

(** C3: in every run started by [handleSubmit] the values passed to
    [setProgress] are non-decreasing up to the end of the run; a run that
    ends in [SUCCESS] ends with the value 100, and a run that ends in
    [ERROR] ends with the progress put back to 0.  Every run ends in one
    of the two. *)
Theorem progress_non_decreasing (c : AppState) (f : File) (env : RunEnv) :
  file c = Some f ->
  let acts := actions (handleSubmit c env) in
  let s' := run c acts in
  (status s' = SUCCESS /\
   Sorted N.le (progress_updates acts) /\
   last (progress_updates acts) 0 = 100 /\ progress s' = 100)
  \/
  (status s' = ERROR /\
   exists ps, progress_updates acts = ps ++ [0] /\
              Sorted N.le ps /\ progress s' = 0).
Proof.
  intros Hf. cbv zeta.
  destruct (run_cases env)
    as [(result & text & Hr & Hg) | [(re & Hr) | (result & reason & Hr & Hg)]].
  - left.
    rewrite (submit_final_success c f env Hf result text Hr Hg).
    rewrite (submit_actions_success c f env Hf result text Hr Hg).
    repeat split.
    cbn. repeat (constructor; try (cbv; discriminate)).
  - right.
    rewrite (submit_final_read_failed c f env Hf re Hr).
    rewrite (submit_actions_read_failed c f env Hf re Hr).
    split; [reflexivity|]. exists [0]. repeat split.
    repeat (constructor; try (cbv; discriminate)).
  - right.
    rewrite (submit_final_gen_rejected c f env Hf result reason Hr Hg).
    rewrite (submit_actions_gen_rejected c f env Hf result reason Hr Hg).
    split; [reflexivity|]. exists [0; 25; 50; 75]. repeat split.
    repeat (constructor; try (cbv; discriminate)).
Qed.

Lemma progress_non_decreasing_witness :
  progress_updates
    (actions (handleSubmit
                (mkState (Some (mkFile (lit "song.mp3") 2000000)) None IDLE
                   selectPrompt [] None 0)
                (mkEnv (Loaded (lit "data:audio/mpeg;base64,QUJD"))
                   (GenResponse (lit "Walking on sunshine")))))
  = [0; 25; 50; 75; 100] /\
  (status (run (mkState (Some (mkFile (lit "song.mp3") 2000000)) None IDLE
                  selectPrompt [] None 0)
             (actions (handleSubmit
                         (mkState (Some (mkFile (lit "song.mp3") 2000000)) None
                            IDLE selectPrompt [] None 0)
                         (mkEnv (Loaded (lit "data:audio/mpeg;base64,QUJD"))
                            (GenResponse (lit "Walking on sunshine"))))))
   = SUCCESS \/
   status (run (mkState (Some (mkFile (lit "song.mp3") 2000000)) None IDLE
                  selectPrompt [] None 0)
             (actions (handleSubmit
                         (mkState (Some (mkFile (lit "song.mp3") 2000000)) None
                            IDLE selectPrompt [] None 0)
                         (mkEnv (Loaded (lit "data:audio/mpeg;base64,QUJD"))
                            (GenResponse (lit "Walking on sunshine"))))))
   = ERROR).
Proof.
  split; [reflexivity|].
  destruct (progress_non_decreasing
              (mkState (Some (mkFile (lit "song.mp3") 2000000)) None IDLE
                 selectPrompt [] None 0)
              (mkFile (lit "song.mp3") 2000000)
              (mkEnv (Loaded (lit "data:audio/mpeg;base64,QUJD"))
                 (GenResponse (lit "Walking on sunshine")))
              eq_refl) as [[H _] | [H _]].
  - left. exact H.
  - right. exact H.
Defined.

(** ** Stage order *)

(** C8 as stated fails on the analysis stage: in a run where nothing
    fails, no delay runs between the message "Analyzing vocals..." and
    progress 50; the progress is set right after the message and the
    1500 ms delay of the stage comes after it. *)
Lemma progress_50_precedes_analysis_delay :
  let c := mkState (Some (mkFile (lit "song.mp3") 2000000)) None IDLE
             selectPrompt [] None 0 in
  let env := mkEnv (Loaded (lit "data:audio/mpeg;base64,QUJD"))
               (GenResponse (lit "Walking on sunshine")) in
  let acts := actions (handleSubmit c env) in
  ~ delay_between analyzingMessage 50 acts /\
  before (SetProgress 50) (Wait 1500)
    (after (SetStatusMessage analyzingMessage) acts) = true.
Proof.
  cbv zeta. split; [|reflexivity].
  intros [ms H]. vm_compute in H. discriminate.
Qed.

(** C8, as the code has it: the stage actions of the [try] block of any
    run are an initial part of the fixed plan
    message "Reading audio file...", read the file, progress 25, delay 500,
    message "Analyzing vocals...", progress 50, delay 1500,
    message "Writing lyrics...", progress 75, remote call, progress 100,
    delay 500; when nothing fails the run performs the whole plan in
    that order, ends in [SUCCESS], and shows, while suspended, reading/0
    during the read, reading/25 during the first delay, analyzing/50
    during the second, writing/75 during the remote call and writing/100
    during the last delay. *)
Theorem stage_order (c : AppState) (f : File) (env : RunEnv) :
  file c = Some f ->
  (exists enc k,
      filter is_stage_action (actions (submitTry f env))
      = firstn k (stage_plan f enc)) /\
  (forall result text,
      readOutcome env = Loaded result ->
      genOutcome env = GenResponse text ->
      let acts := actions (handleSubmit c env) in
      filter is_stage_action acts = SetProgress 0 :: stage_plan f (onload result) /\
      suspensions c acts
      = [ (ReadAsDataURL f, readingMessage, 0);
          (Wait 500, readingMessage, 25);
          (Wait 1500, analyzingMessage, 50);
          (GenerateContent (fst (onload result)) (snd (onload result)),
            writingMessage, 75);
          (Wait 500, writingMessage, 100) ] /\
      status (run c acts) = SUCCESS).
Proof.
  intros Hf. split.
  - destruct (run_cases env)
      as [(result & text & Hr & Hg) | [(re & Hr) | (result & reason & Hr & Hg)]].
    + exists (onload result), 12%nat. unfold submitTry. rewrite Hr, Hg.
      unfold transcribeLyrics, generateContent, fileToBase64.
      destruct (trim text) eqn:E; cbn -[onload lit trim]; rewrite E; reflexivity.
    + exists (None, None), 2%nat. unfold submitTry. rewrite Hr. reflexivity.
    + exists (onload result), 10%nat. unfold submitTry. rewrite Hr, Hg.
      destruct reason; reflexivity.
  - intros result text Hr Hg. cbv zeta.
    rewrite (submit_actions_success c f env Hf result text Hr Hg).
    repeat split.
Qed.

Lemma stage_order_witness :
  filter is_stage_action
    (actions (handleSubmit
                (mkState (Some (mkFile (lit "song.mp3") 2000000)) None IDLE
                   selectPrompt [] None 0)
                (mkEnv (Loaded (lit "data:audio/mpeg;base64,QUJD"))
                   (GenResponse (lit "Walking on sunshine")))))
  = SetProgress 0
      :: stage_plan (mkFile (lit "song.mp3") 2000000)
           (Some (lit "QUJD"), Some (lit "audio/mpeg")).
Proof.
  destruct (stage_order
              (mkState (Some (mkFile (lit "song.mp3") 2000000)) None IDLE
                 selectPrompt [] None 0)
              (mkFile (lit "song.mp3") 2000000)
              (mkEnv (Loaded (lit "data:audio/mpeg;base64,QUJD"))
                 (GenResponse (lit "Walking on sunshine")))
              eq_refl) as [_ H].
  exact (proj1 (H (lit "data:audio/mpeg;base64,QUJD")
                  (lit "Walking on sunshine") eq_refl eq_refl)).
Defined.

(** ** Lyrics and error *)

Lemma both_set_flags (s : AppState) :
  negb (truthy (lyrics s)) || negb (truthy_opt (error s)) = negb (both_set s).
Proof. unfold both_set. now rewrite negb_andb. Qed.

Lemma never_both_sound (acts : list Action) :
  forall s,
    never_both (negb (truthy (lyrics s))) (negb (truthy_opt (error s))) acts = true ->
    forall pre post, acts = pre ++ post -> both_set (run s pre) = false.
Proof.
  induction acts as [|a r IH]; intros s H pre post E.
  - destruct pre; [|discriminate]. cbn in *.
    rewrite andb_true_r, both_set_flags in H. now apply negb_true_iff.
  - destruct pre as [|a' pre'].
    + cbn in H |- *. apply andb_true_iff in H as [H _].
      rewrite both_set_flags in H. now apply negb_true_iff.
    + injection E as <- E. change (run s (a :: pre')) with (run (apply_action s a) pre').
      apply (IH (apply_action s a)) with (post := post); [|exact E].
      cbn [never_both] in H. apply andb_true_iff in H as [_ H].
      destruct a; exact H.
Qed.

Lemma usable_FileInput (s : AppState) :
  usable s FileInput = true -> status s = IDLE.
Proof. unfold usable, rendered, disabled, showResults, isProcessing.
  destruct (status s); cbn; congruence. Qed.

Lemma usable_TranscribeButton (s : AppState) :
  usable s TranscribeButton = true ->
  status s = IDLE /\ exists f, file s = Some f.
Proof.
  unfold usable, rendered, disabled, showResults, isProcessing.
  destruct (status s), (file s) as [f|]; cbn; try congruence.
  intros _. split; [reflexivity|]. now exists f.
Qed.

Lemma at_rest_flags (s : AppState) :
  at_rest s -> status s = IDLE ->
  negb (truthy (lyrics s)) = true /\ negb (truthy_opt (error s)) = true.
Proof.
  intros (_ & Hidle & _) Hst. destruct (Hidle Hst) as [-> ->]. now split.
Qed.

(** Every handler, started where the view offers it, keeps the two fields
    from being set together at each of its steps. *)
Lemma handler_never_both (s : AppState) (ev : UserEvent) :
  at_rest s ->
  usable s (control_of ev) = true ->
  never_both (negb (truthy (lyrics s))) (negb (truthy_opt (error s)))
    (actions (handler s ev)) = true.
Proof.
  intros Hs Hu. destruct ev as [files url|env|]; cbn [control_of handler] in *.
  - destruct (at_rest_flags s Hs (usable_FileInput s Hu)) as [-> ->].
    unfold handleFileChange.
    destruct files as [[|first rest]|]; try reflexivity.
    destruct (maxFileSize <? size first); [reflexivity|].
    destruct (audioSrc s) as [[|u0 u]|]; reflexivity.
  - destruct (usable_TranscribeButton s Hu) as (Hst & f & Hf).
    destruct (at_rest_flags s Hs Hst) as [-> ->].
    destruct (run_cases env)
      as [(result & text & Hr & Hg) | [(re & Hr) | (result & reason & Hr & Hg)]].
    + rewrite (submit_actions_success s f env Hf result text Hr Hg).
      destruct (trim text); reflexivity.
    + rewrite (submit_actions_read_failed s f env Hf re Hr). reflexivity.
    + rewrite (submit_actions_gen_rejected s f env Hf result reason Hr Hg).
      destruct reason; reflexivity.
  - destruct Hs as (_ & _ & Hb). unfold both_set in Hb.
    destruct (truthy (lyrics s)), (truthy_opt (error s));
      try discriminate; reflexivity.
Qed.

Lemma reachable_at_rest (s : AppState) : reachable s -> at_rest s.
Proof.
  induction 1 as [|s ev Hs IH Hu].
  - repeat split; discriminate.
  - assert (Hb : both_set (dispatch s ev) = false).
    { apply (never_both_sound _ s (handler_never_both s ev IH Hu)
               (actions (handler s ev)) []).
      now rewrite app_nil_r. }
    split; [|split]; [| |exact Hb]; unfold dispatch;
      destruct ev as [files url|env|]; cbn [control_of handler] in *.
    + pose proof (usable_FileInput s Hu) as Hst.
      unfold handleFileChange.
      destruct files as [[|first rest]|];
        [ | destruct (maxFileSize <? size first);
            [ | destruct (audioSrc s) as [[|u0 u]|] ] | ];
        cbn; congruence.
    + destruct (usable_TranscribeButton s Hu) as (Hst & f & Hf).
      destruct (run_cases env)
        as [(result & text & Hr & Hg) | [(re & Hr) | (result & reason & Hr & Hg)]].
      * rewrite (submit_final_success s f env Hf result text Hr Hg). discriminate.
      * rewrite (submit_final_read_failed s f env Hf re Hr). discriminate.
      * rewrite (submit_final_gen_rejected s f env Hf result reason Hr Hg).
        discriminate.
    + discriminate.
    + pose proof (usable_FileInput s Hu) as Hst.
      destruct IH as (_ & Hidle & _). destruct (Hidle Hst) as [Hl He].
      unfold handleFileChange.
      destruct files as [[|first rest]|];
        [ | destruct (maxFileSize <? size first);
            [ | destruct (audioSrc s) as [[|u0 u]|] ] | ];
        cbn; try discriminate; intros _; now split.
    + destruct (usable_TranscribeButton s Hu) as (Hst & f & Hf).
      destruct (run_cases env)
        as [(result & text & Hr & Hg) | [(re & Hr) | (result & reason & Hr & Hg)]].
      * rewrite (submit_final_success s f env Hf result text Hr Hg). discriminate.
      * rewrite (submit_final_read_failed s f env Hf re Hr). discriminate.
      * rewrite (submit_final_gen_rejected s f env Hf result reason Hr Hg).
        discriminate.
    + intros _. now split.
Qed.

(** Outside the view.  [dispatch_all] invokes handlers in any order,
    whatever is on the screen; handed an oversize file in a state that
    holds the lyrics of a finished run, [handleFileChange] sets the error
    and leaves the lyrics in place.  The view never delivers this event:
    on the results screen no file input is rendered, so the state below
    is not reachable. *)
Lemma oversize_after_success_keeps_lyrics :
  ~ (forall evs : list UserEvent,
        truthy_opt (error (dispatch_all initialState evs)) = true ->
        lyrics (dispatch_all initialState evs) = []).
Proof.
  intros H.
  specialize (H [SelectFiles (Some [mkFile (lit "song.mp3") 2000000]) (lit "blob:1");
                 ClickTranscribe
                   (mkEnv (Loaded (lit "data:audio/mpeg;base64,QUJD"))
                      (GenResponse (lit "Walking on sunshine")));
                 SelectFiles (Some [mkFile (lit "concert.wav") 60000000])
                   (lit "blob:2")]
                eq_refl).
  discriminate H.
Qed.

(** C1: in every reachable state of the pipeline, that is, every state
    the component passes through, at rest or in the middle of a handler,
    when the events arrive through the controls the view renders and
    enables (the file input and the TRANSCRIBE button only while no result
    is shown and no run is in progress, the reset button only on the
    results screen), [lyrics] and [error] are never both non-empty; a
    state with a non-empty error message has empty lyrics.  After a
    successful run the file input is not on the screen, so no file,
    oversize or not, can be selected there before a reset. *)
Theorem lyrics_and_error_never_both (s : AppState) :
  observable s ->
  both_set s = false /\ (truthy_opt (error s) = true -> lyrics s = []).
Proof.
  intros Ho.
  assert (Hb : both_set s = false).
  { destruct Ho as [s Hs | s ev pre post Hs Hu E].
    - apply (reachable_at_rest s Hs).
    - apply (never_both_sound _ s
               (handler_never_both s ev (reachable_at_rest s Hs) Hu) pre post E). }
  split; [exact Hb|].
  intros He. unfold both_set in Hb. rewrite He, andb_true_r in Hb.
  destruct (lyrics s); [reflexivity|discriminate].
Qed.

Lemma lyrics_and_error_never_both_witness :
  both_set (dispatch
              (dispatch initialState
                 (SelectFiles (Some [mkFile (lit "song.mp3") 2000000])
                    (lit "blob:1")))
              (ClickTranscribe
                 (mkEnv (Loaded (lit "data:audio/mpeg;base64,QUJD"))
                    (GenRejected (ThrownError (lit "quota exceeded"))))))
  = false.
Proof.
  apply lyrics_and_error_never_both.
  apply observable_at_rest.
  apply reachable_event; [|reflexivity].
  apply reachable_event; [|reflexivity].
  apply reachable_initial.
Defined.

(** ** Scenarios *)

(** A 2 MB file is selected and submitted, and the model answers with two
    lines of lyrics. *)
Example scenario_success :
  let lines := lit "Walking on sunshine" ++ [10] ++ lit "Oh yeah" in
  let s := dispatch_all initialState
             [ SelectFiles (Some [mkFile (lit "song.mp3") 2000000]) (lit "blob:1");
               ClickTranscribe
                 (mkEnv (Loaded (lit "data:audio/mpeg;base64,QUJD"))
                    (GenResponse lines)) ] in
  status s = SUCCESS /\ lyrics s = lines /\ progress s = 100 /\ error s = None.
Proof. repeat split. Qed.

(** A 60 MB file is selected: nothing is read or sent. *)
Example scenario_oversize :
  let m := handleFileChange initialState
             (Some [mkFile (lit "concert.wav") 60000000]) (lit "blob:1") in
  status (run initialState (actions m)) = ERROR /\
  error (run initialState (actions m)) = Some oversizeMessage /\
  filter is_external (actions m) = [].
Proof. repeat split. Qed.

(** A file of exactly 50 MiB is accepted. *)
Example scenario_ceiling :
  let s := dispatch initialState
             (SelectFiles (Some [mkFile (lit "song.mp3") 52428800]) (lit "blob:1")) in
  status s = IDLE /\ file s = Some (mkFile (lit "song.mp3") 52428800).
Proof. repeat split. Qed.

(** ** The data URL cut up by [onload] *)

Lemma split_free (sep : N) (s : jsstring) :
  free_of sep s = true -> split sep s = [s].
Proof.
  induction s as [|c r IH]; [reflexivity|].
  cbn. intros H. apply andb_true_iff in H as [Hc Hr].
  apply negb_true_iff in Hc. rewrite Hc, (IH Hr). reflexivity.
Qed.

Lemma split_at_first (sep : N) (a b : jsstring) :
  free_of sep a = true -> split sep (a ++ sep :: b) = a :: split sep b.
Proof.
  induction a as [|c r IH]; cbn.
  - intros _. now rewrite N.eqb_refl.
  - intros H. apply andb_true_iff in H as [Hc Hr].
    apply negb_true_iff in Hc. rewrite Hc, (IH Hr). reflexivity.
Qed.

Lemma free_of_app (c : N) (a b : jsstring) :
  free_of c (a ++ b) = free_of c a && free_of c b.
Proof. unfold free_of. apply forallb_app. Qed.

(** X1: for a data URL "data:" mime ";" params "," payload whose media
    type contains no ';', ':' or ',', whose parameters contain no ',' and
    whose payload contains no ',', [onload] returns the payload as
    [base64] and the bare media type as [mimeType]; whatever follows the
    first ';' (such as "base64" or "codecs=opus;base64") is dropped. *)
Theorem onload_data_url (mime params payload : jsstring) :
  free_of 59 mime = true -> free_of 58 mime = true -> free_of 44 mime = true ->
  free_of 44 params = true -> free_of 44 payload = true ->
  onload (lit "data:" ++ mime ++ 59 :: params ++ 44 :: payload)
  = (Some payload, Some mime).
Proof.
  intros Hsemi Hcolon Hcomma Hparams Hpayload. unfold onload.
  assert (E1 : split 59 (lit "data:" ++ mime ++ 59 :: params ++ 44 :: payload)
               = (lit "data:" ++ mime) :: split 59 (params ++ 44 :: payload)).
  { replace (lit "data:" ++ mime ++ 59 :: params ++ 44 :: payload)
      with ((lit "data:" ++ mime) ++ 59 :: params ++ 44 :: payload)
      by (rewrite <- app_assoc; reflexivity).
    apply split_at_first. rewrite free_of_app, Hsemi. reflexivity. }
  assert (E2 : split 58 (lit "data:" ++ mime) = [lit "data"; mime]).
  { change (lit "data:" ++ mime) with (lit "data" ++ 58 :: mime).
    rewrite split_at_first by reflexivity. now rewrite (split_free 58 mime Hcolon). }
  assert (E3 : split 44 (lit "data:" ++ mime ++ 59 :: params ++ 44 :: payload)
               = [lit "data:" ++ mime ++ 59 :: params; payload]).
  { replace (lit "data:" ++ mime ++ 59 :: params ++ 44 :: payload)
      with ((lit "data:" ++ mime ++ 59 :: params) ++ 44 :: payload)
      by (rewrite <- !app_assoc; reflexivity).
    rewrite split_at_first.
    - now rewrite (split_free 44 payload Hpayload).
    - rewrite !free_of_app, Hcomma. exact Hparams. }
  rewrite E1, E3. cbn [index nth_error]. rewrite E2. reflexivity.
Qed.

Lemma onload_data_url_witness :
  onload (lit "data:audio/ogg;codecs=opus;base64,T2dnUw==")
  = (Some (lit "T2dnUw=="), Some (lit "audio/ogg")).
Proof.
  apply (onload_data_url (lit "audio/ogg") (lit "codecs=opus;base64")
           (lit "T2dnUw==")); reflexivity.
Defined.

(** X2: a result without a comma has no [base64] part ([undefined]); the
    run does not check this and still sends the request, with the data
    missing, and ends as the answer to that request decides. *)
Theorem missing_payload_still_sent (c : AppState) (f : File) (env : RunEnv)
  (result text : jsstring) :
  file c = Some f ->
  readOutcome env = Loaded result ->
  genOutcome env = GenResponse text ->
  free_of 44 result = true ->
  fst (onload result) = None /\
  In (GenerateContent None (snd (onload result))) (actions (handleSubmit c env)) /\
  status (run c (actions (handleSubmit c env))) = SUCCESS.
Proof.
  intros Hf Hr Hg Hfree.
  assert (Hb : fst (onload result) = None).
  { unfold onload. cbn [fst]. now rewrite (split_free 44 result Hfree). }
  split; [exact Hb|]. split.
  - rewrite (submit_actions_success c f env Hf result text Hr Hg).
    rewrite <- Hb. cbn. tauto.
  - now rewrite (submit_final_success c f env Hf result text Hr Hg).
Qed.

Lemma missing_payload_still_sent_witness :
  In (GenerateContent None (Some []))
    (actions (handleSubmit
                (mkState (Some (mkFile (lit "empty.mp3") 0)) None IDLE
                   selectPrompt [] None 0)
                (mkEnv (Loaded (lit "data:")) (GenResponse (lit "la"))))).
Proof.
  apply (missing_payload_still_sent
           (mkState (Some (mkFile (lit "empty.mp3") 0)) None IDLE
              selectPrompt [] None 0)
           (mkFile (lit "empty.mp3") 0)
           (mkEnv (Loaded (lit "data:")) (GenResponse (lit "la")))
           (lit "data:") (lit "la")); reflexivity.
Defined.

(** ** What [transcribeLyrics] returns and throws *)

Lemma trimStart_split (s : jsstring) :
  exists l, s = l ++ trimStart s /\ forallb isWhiteSpace l = true.
Proof.
  induction s as [|c r (l & E & W)]; [now exists []|].
  cbn. destruct (isWhiteSpace c) eqn:Hc.
  - exists (c :: l). cbn. rewrite Hc, W. split; [congruence|reflexivity].
  - now exists [].
Qed.

Lemma trimStart_head (s : jsstring) (c : N) :
  hd_error (trimStart s) = Some c -> isWhiteSpace c = false.
Proof.
  induction s as [|a r IH]; cbn; [discriminate|].
  destruct (isWhiteSpace a) eqn:Ha; [exact IH|].
  cbn. now intros [= <-].
Qed.

Lemma trimStart_snoc (s : jsstring) (c : N) :
  isWhiteSpace c = false -> trimStart (s ++ [c]) = trimStart s ++ [c].
Proof.
  intros Hc. induction s as [|a r IH]; cbn.
  - now rewrite Hc.
  - destruct (isWhiteSpace a); [exact IH|reflexivity].
Qed.

Lemma forallb_rev {A} (p : A -> bool) (l : list A) :
  forallb p l = true -> forallb p (rev l) = true.
Proof.
  rewrite !forallb_forall. intros H x Hx. apply H. now apply in_rev.
Qed.

Lemma trimEnd_split (s : jsstring) :
  exists r, s = trimEnd s ++ r /\ forallb isWhiteSpace r = true.
Proof.
  destruct (trimStart_split (rev s)) as (l & E & W).
  exists (rev l). split; [|now apply forallb_rev].
  unfold trimEnd. rewrite <- rev_app_distr, <- E. now rewrite rev_involutive.
Qed.

Lemma trimEnd_cons (c : N) (r : jsstring) :
  isWhiteSpace c = false -> trimEnd (c :: r) = c :: trimEnd r.
Proof.
  intros Hc. unfold trimEnd. cbn [rev].
  rewrite (trimStart_snoc _ c Hc), rev_app_distr. reflexivity.
Qed.

Lemma trim_head (s : jsstring) (c : N) :
  hd_error (trim s) = Some c -> isWhiteSpace c = false.
Proof.
  unfold trim. destruct (trimStart s) as [|a r] eqn:E; [discriminate|].
  assert (Ha : isWhiteSpace a = false)
    by (apply (trimStart_head s); now rewrite E).
  rewrite (trimEnd_cons a r Ha). cbn. now intros [= <-].
Qed.

Lemma trim_last (s : jsstring) (c : N) :
  hd_error (rev (trim s)) = Some c -> isWhiteSpace c = false.
Proof.
  unfold trim, trimEnd. rewrite rev_involutive. apply trimStart_head.
Qed.

(** X3: when the model answers, [transcribeLyrics] returns the text of the
    response with whitespace removed at both ends and nothing else changed:
    the text is the returned string between two runs of whitespace, and the
    returned string neither starts nor ends with whitespace. *)
Theorem transcribeLyrics_strips_ends (b m : option jsstring) (text : jsstring) :
  exists l t r,
    outcome (transcribeLyrics b m (GenResponse text)) = inr t /\
    text = l ++ t ++ r /\
    forallb isWhiteSpace l = true /\ forallb isWhiteSpace r = true /\
    (forall c, hd_error t = Some c -> isWhiteSpace c = false) /\
    (forall c, hd_error (rev t) = Some c -> isWhiteSpace c = false).
Proof.
  destruct (trimStart_split text) as (l & El & Wl).
  destruct (trimEnd_split (trimStart text)) as (r & Er & Wr).
  exists l, (trim text), r.
  split; [reflexivity|]. split.
  - unfold trim. now rewrite <- Er.
  - repeat split; trivial; intros c; [apply trim_head|apply trim_last].
Qed.

(** X4: [transcribeLyrics] makes exactly one request, whatever the
    outcome, and when it fails it always throws an [Error] with a
    non-empty message and logs the original failure: a value that is not
    an [Error] never escapes it. *)
Theorem transcribeLyrics_single_request (b m : option jsstring) (g : GenOutcome) :
  filter is_request (actions (transcribeLyrics b m g)) = [GenerateContent b m] /\
  (forall e, outcome (transcribeLyrics b m g) = inl e ->
     exists reason msg,
       g = GenRejected reason /\ e = ThrownError msg /\ msg <> [] /\
       In (ConsoleError reason) (actions (transcribeLyrics b m g))).
Proof.
  destruct g as [text|reason].
  - split; [reflexivity|]. intros e He. discriminate.
  - rewrite transcribeLyrics_rejected. split; [reflexivity|].
    intros e [= <-]. eexists reason, _. split; [reflexivity|]. split; [reflexivity|].
    split; [|cbn; tauto].
    destruct (instanceofError reason); discriminate.
Qed.

(** ** One run, as a whole *)

(** X5: a run reads the file once and never retries: it sends one request
    if the read succeeds and none if it fails; it spends its delays of
    500, 1500 and 500 ms in that order when nothing fails, only the first
    two when the request fails, and none when the read fails. *)
Theorem run_single_attempt (c : AppState) (f : File) (env : RunEnv) :
  file c = Some f ->
  let acts := actions (handleSubmit c env) in
  filter is_read acts = [ReadAsDataURL f] /\
  match readOutcome env, genOutcome env with
  | Loaded result, GenResponse _ =>
      filter is_request acts
      = [GenerateContent (fst (onload result)) (snd (onload result))] /\
      delays acts = [500; 1500; 500]
  | Loaded result, GenRejected _ =>
      filter is_request acts
      = [GenerateContent (fst (onload result)) (snd (onload result))] /\
      delays acts = [500; 1500]
  | ReadFailed _, _ =>
      filter is_request acts = [] /\ delays acts = []
  end.
Proof.
  intros Hf. cbv zeta.
  destruct (readOutcome env) as [result|re] eqn:Hr.
  - destruct (genOutcome env) as [text|reason] eqn:Hg.
    + rewrite (submit_actions_success c f env Hf result text Hr Hg). repeat split.
    + rewrite (submit_actions_gen_rejected c f env Hf result reason Hr Hg).
      repeat split.
  - rewrite (submit_actions_read_failed c f env Hf re Hr). repeat split.
Qed.

Lemma run_single_attempt_witness :
  filter is_read
    (actions (handleSubmit
                (mkState (Some (mkFile (lit "song.mp3") 2000000)) None IDLE
                   selectPrompt [] None 0)
                (mkEnv (Loaded (lit "data:audio/mpeg;base64,QUJD"))
                   (GenRejected ThrownOther))))
  = [ReadAsDataURL (mkFile (lit "song.mp3") 2000000)].
Proof.
  apply (run_single_attempt
           (mkState (Some (mkFile (lit "song.mp3") 2000000)) None IDLE
              selectPrompt [] None 0)
           (mkFile (lit "song.mp3") 2000000)
           (mkEnv (Loaded (lit "data:audio/mpeg;base64,QUJD"))
              (GenRejected ThrownOther))
           eq_refl).
Defined.

(** X6: every run started with a file selected keeps the file and its
    object URL and ends in exactly one of two ways: [SUCCESS] with
    non-empty lyrics, no error and progress 100, or [ERROR] with a
    non-empty error message, no lyrics and progress 0. *)
Theorem run_ends_in_success_or_error (c : AppState) (f : File) (env : RunEnv) :
  file c = Some f ->
  let s' := run c (actions (handleSubmit c env)) in
  file s' = file c /\ audioSrc s' = audioSrc c /\
  ((status s' = SUCCESS /\ lyrics s' <> [] /\ error s' = None /\ progress s' = 100)
   \/
   (status s' = ERROR /\ (exists m, error s' = Some m /\ m <> []) /\
    lyrics s' = [] /\ progress s' = 0)).
Proof.
  intros Hf. cbv zeta.
  destruct (run_cases env)
    as [(result & text & Hr & Hg) | [(re & Hr) | (result & reason & Hr & Hg)]].
  - rewrite (submit_final_success c f env Hf result text Hr Hg).
    split; [reflexivity|]. split; [reflexivity|]. left. cbn.
    repeat split. destruct (trim text); discriminate.
  - rewrite (submit_final_read_failed c f env Hf re Hr).
    split; [reflexivity|]. split; [reflexivity|]. right. cbn.
    repeat split. eexists. split; [reflexivity|discriminate].
  - rewrite (submit_final_gen_rejected c f env Hf result reason Hr Hg).
    split; [reflexivity|]. split; [reflexivity|]. right. cbn.
    repeat split. eexists. split; [reflexivity|].
    destruct (instanceofError reason); discriminate.
Qed.

Lemma run_ends_in_success_or_error_witness :
  audioSrc (run (mkState (Some (mkFile (lit "song.mp3") 2000000))
                   (Some (lit "blob:1")) IDLE selectPrompt [] None 0)
              (actions (handleSubmit
                          (mkState (Some (mkFile (lit "song.mp3") 2000000))
                             (Some (lit "blob:1")) IDLE selectPrompt [] None 0)
                          (mkEnv (ReadFailed (lit "The file could not be read."))
                             (GenResponse (lit "la"))))))
  = Some (lit "blob:1").
Proof.
  apply (run_ends_in_success_or_error
           (mkState (Some (mkFile (lit "song.mp3") 2000000))
              (Some (lit "blob:1")) IDLE selectPrompt [] None 0)
           (mkFile (lit "song.mp3") 2000000)
           (mkEnv (ReadFailed (lit "The file could not be read."))
              (GenResponse (lit "la")))
           eq_refl).
Defined.

(** ** Selecting a file *)

(** X7: a file of at most 52,428,800 bytes is adopted from any state, with
    everything else reset: whatever the state before, the component ends
    in [IDLE] with that file, the new object URL, the initial prompt, no
    lyrics, no error and progress 0.  Only the first file of the selection
    counts, nothing is read or sent, and the object URL of the render the
    handler closes over is revoked exactly when it is non-empty. *)
Theorem acceptable_file_adopted (c : AppState) (first : File)
  (rest : list File) (url : jsstring) :
  size first <= 52428800 ->
  let acts := actions (handleFileChange c (Some (first :: rest)) url) in
  run c acts = mkState (Some first) (Some url) IDLE selectPrompt [] None 0 /\
  existsb is_external acts = false /\
  revocations acts
  = match audioSrc c with
    | Some u => if truthy u then [u] else []
    | None => []
    end.
Proof.
  intros Hsize. cbv zeta. unfold handleFileChange.
  replace (maxFileSize <? size first) with false
    by (symmetry; apply N.ltb_ge; exact Hsize).
  destruct (audioSrc c) as [[|u0 u]|]; repeat split.
Qed.

Lemma acceptable_file_adopted_witness :
  run (mkState None (Some (lit "blob:0")) ERROR writingMessage
         (lit "old lyrics") (Some oversizeMessage) 100)
    (actions (handleFileChange
                (mkState None (Some (lit "blob:0")) ERROR writingMessage
                   (lit "old lyrics") (Some oversizeMessage) 100)
                (Some [mkFile (lit "song.mp3") 52428800;
                       mkFile (lit "other.mp3") 60000000])
                (lit "blob:1")))
  = mkState (Some (mkFile (lit "song.mp3") 52428800)) (Some (lit "blob:1"))
      IDLE selectPrompt [] None 0.
Proof.
  apply (acceptable_file_adopted
           (mkState None (Some (lit "blob:0")) ERROR writingMessage
              (lit "old lyrics") (Some oversizeMessage) 100)
           (mkFile (lit "song.mp3") 52428800)
           [mkFile (lit "other.mp3") 60000000] (lit "blob:1")).
  discriminate.
Defined.

(** X8: rejecting an oversize file is not a reset: apart from the error,
    the status and the deselected file, the state is left as it was; the
    object URL of the file selected before, the lyrics, the stage message
    and the progress all stay, and nothing is revoked. *)
Theorem oversize_rejection_keeps_rest (c : AppState) (first : File)
  (rest : list File) (url : jsstring) :
  52428800 < size first ->
  let acts := actions (handleFileChange c (Some (first :: rest)) url) in
  run c acts
  = mkState None (audioSrc c) ERROR (statusMessage c) (lyrics c)
      (Some oversizeMessage) (progress c) /\
  revocations acts = [].
Proof.
  intros Hsize. cbv zeta. unfold handleFileChange.
  replace (maxFileSize <? size first) with true
    by (symmetry; apply N.ltb_lt; exact Hsize).
  split; reflexivity.
Qed.

Lemma oversize_rejection_keeps_rest_witness :
  run (mkState (Some (mkFile (lit "song.mp3") 2000000)) (Some (lit "blob:1"))
         IDLE selectPrompt [] None 0)
    (actions (handleFileChange
                (mkState (Some (mkFile (lit "song.mp3") 2000000))
                   (Some (lit "blob:1")) IDLE selectPrompt [] None 0)
                (Some [mkFile (lit "concert.wav") 52428801]) (lit "blob:2")))
  = mkState None (Some (lit "blob:1")) ERROR selectPrompt [] (Some oversizeMessage) 0.
Proof.
  apply (oversize_rejection_keeps_rest
           (mkState (Some (mkFile (lit "song.mp3") 2000000))
              (Some (lit "blob:1")) IDLE selectPrompt [] None 0)
           (mkFile (lit "concert.wav") 52428801) [] (lit "blob:2")).
  reflexivity.
Defined.

(** ** States at rest *)

Lemma reachable_shape (s : AppState) : reachable s -> well_shaped s.
Proof.
  induction 1 as [|s ev Hs IH Hu].
  - cbn. repeat split; trivial.
  - destruct ev as [files url|env|]; cbn [control_of] in Hu; unfold dispatch;
      cbn [handler].
    + pose proof (usable_FileInput s Hu) as Hst.
      unfold well_shaped in IH. rewrite Hst in IH.
      destruct IH as (Hl & He & Hp & Hm & Hfa).
      unfold handleFileChange.
      destruct files as [[|first rest]|];
        [ | destruct (maxFileSize <? size first);
            [ | destruct (audioSrc s) as [[|u0 u]|] ] | ];
        unfold well_shaped; cbn; rewrite ?Hst, ?Hl, ?Hp;
        repeat split; trivial; try apply Hfa; try discriminate.
      eexists. split; [reflexivity|discriminate].
    + destruct (usable_TranscribeButton s Hu) as (Hst & f & Hf).
      unfold well_shaped in IH. rewrite Hst in IH.
      destruct IH as (_ & _ & _ & _ & Hfa).
      assert (Ha : audioSrc s <> None).
      { intros Ha. apply Hfa in Ha. congruence. }
      destruct (run_cases env)
        as [(result & text & Hr & Hg) | [(re & Hr) | (result & reason & Hr & Hg)]].
      * rewrite (submit_final_success s f env Hf result text Hr Hg).
        unfold well_shaped. cbn. repeat split; trivial.
        -- destruct (trim text); discriminate.
        -- congruence.
      * rewrite (submit_final_read_failed s f env Hf re Hr).
        unfold well_shaped. cbn. repeat split.
        eexists. split; [reflexivity|discriminate].
      * rewrite (submit_final_gen_rejected s f env Hf result reason Hr Hg).
        unfold well_shaped. cbn. repeat split.
        eexists. split; [reflexivity|].
        destruct (instanceofError reason); discriminate.
    + cbn. repeat split; trivial.
Qed.

(** X9: in every state the component comes to rest in through the
    controls the view offers, the fields agree with the status.  In
    [IDLE] there are no lyrics, no error, progress 0 and the initial
    prompt, and a file is selected exactly when an object URL is held; in
    [SUCCESS] there are non-empty lyrics, no error, progress 100, a file
    and its object URL; in [ERROR] there is a non-empty error message, no
    lyrics and progress 0; the component never rests in [PROCESSING]. *)
Theorem reachable_well_shaped (s : AppState) : reachable s -> well_shaped s.
Proof. exact (reachable_shape s). Qed.

Lemma reachable_well_shaped_witness :
  well_shaped
    (dispatch
       (dispatch initialState
          (SelectFiles (Some [mkFile (lit "song.mp3") 2000000]) (lit "blob:1")))
       (ClickTranscribe
          (mkEnv (Loaded (lit "data:audio/mpeg;base64,QUJD"))
             (GenResponse (lit "Walking on sunshine"))))).
Proof.
  apply reachable_well_shaped.
  apply reachable_event; [|reflexivity].
  apply reachable_event; [|reflexivity].
  apply reachable_initial.
Defined.


(** ** What is on the screen *)

(** X10: in every state at rest the screen agrees with the status: the
    error view is shown exactly in [ERROR], with the stored non-empty
    message; the lyrics view exactly in [SUCCESS], with the stored
    non-empty lyrics; the upload form exactly in [IDLE], with the file
    input enabled, no progress line, and the TRANSCRIBE button enabled
    exactly when a file is selected. *)
Theorem screen_agrees_with_status (s : AppState) :
  reachable s ->
  match App s with
  | ErrorView m => status s = ERROR /\ error s = Some m /\ m <> []
  | LyricsView _ l => status s = SUCCESS /\ l = lyrics s /\ l <> []
  | UploadView _ _ inputDisabled _ buttonDisabled progressLine =>
      status s = IDLE /\ inputDisabled = false /\ progressLine = None /\
      (buttonDisabled = false <-> file s <> None)
  end.
Proof.
  intros Hs. pose proof (reachable_shape s Hs) as Hw.
  unfold well_shaped in Hw. unfold App, showResults, isProcessing.
  destruct (status s) eqn:Hst; cbn.
  - repeat split; trivial.
    + destruct (file s); cbn; intros H; [discriminate|discriminate H].
    + destruct (file s); cbn; intros H; [reflexivity|congruence].
  - contradiction.
  - destruct Hw as (Hl & He & _). rewrite He. cbn. now repeat split.
  - destruct Hw as ((m & He & Hm) & _). rewrite He. cbn.
    destruct m; [congruence|]. cbn. now repeat split.
Qed.

Lemma screen_agrees_with_status_witness :
  status (dispatch initialState
            (SelectFiles (Some [mkFile (lit "concert.wav") 60000000])
               (lit "blob:1"))) = ERROR.
Proof.
  pose proof (screen_agrees_with_status
                (dispatch initialState
                   (SelectFiles (Some [mkFile (lit "concert.wav") 60000000])
                      (lit "blob:1")))
                (reachable_event initialState
                   (SelectFiles (Some [mkFile (lit "concert.wav") 60000000])
                      (lit "blob:1"))
                   reachable_initial eq_refl)) as H.
  vm_compute in H. vm_compute. exact (proj1 H).
Defined.

(** X11: whenever the lyrics view is on the screen of a state at rest,
    COPY writes exactly the lyrics shown to the clipboard, shows COPIED
    and arms the 2000 ms timer that puts the label back; the guard on
    empty lyrics never fires there. *)
Theorem copy_writes_shown_lyrics (s : AppState) (p : option jsstring)
  (l : jsstring) :
  reachable s ->
  App s = LyricsView p l ->
  handleCopy l
  = [ClipboardWriteText (lyrics s); SetCopied true; SetTimeoutSetCopied 2000 false].
Proof.
  intros Hs Hv. pose proof (reachable_shape s Hs) as Hw.
  unfold well_shaped in Hw. unfold App, showResults, isProcessing in Hv.
  destruct (status s) eqn:Hst; cbn in Hv; try discriminate.
  - destruct Hw as (Hl & He & _). rewrite He in Hv. cbn in Hv.
    injection Hv as _ <-. unfold handleCopy.
    destruct (lyrics s); [congruence|reflexivity].
  - destruct Hw as ((m & He & Hm) & _). rewrite He in Hv. cbn in Hv.
    destruct m; [congruence|discriminate].
Qed.

Lemma copy_writes_shown_lyrics_witness :
  handleCopy (lit "Walking on sunshine")
  = [ClipboardWriteText (lit "Walking on sunshine"); SetCopied true;
     SetTimeoutSetCopied 2000 false].
Proof.
  apply (copy_writes_shown_lyrics
           (dispatch
              (dispatch initialState
                 (SelectFiles (Some [mkFile (lit "song.mp3") 2000000])
                    (lit "blob:1")))
              (ClickTranscribe
                 (mkEnv (Loaded (lit "data:audio/mpeg;base64,QUJD"))
                    (GenResponse (lit "Walking on sunshine")))))
           (Some (lit "blob:1")) (lit "Walking on sunshine")).
  - apply reachable_event; [|reflexivity].
    apply reachable_event; [|reflexivity].
    apply reachable_initial.
  - reflexivity.
Defined.

(** ** Object URLs *)

Lemma audioSrc_eqb_eq (a b : option jsstring) :
  audioSrc_eqb a b = true <-> a = b.
Proof.
  destruct a as [u|], b as [v|]; cbn; try (split; congruence).
  destruct (list_eq_dec N.eq_dec u v); split; congruence.
Qed.

Lemma revocations_app (a b : list Action) :
  revocations (a ++ b) = revocations a ++ revocations b.
Proof.
  induction a as [|x r IH]; [reflexivity|].
  destruct x; cbn; now rewrite IH.
Qed.

Lemma cleanup_changed (u : jsstring) (next : option jsstring) :
  truthy u = true -> next <> Some u ->
  audioSrcCleanup (Some u) next = [RevokeObjectURL u].
Proof.
  intros Hu Hn. unfold audioSrcCleanup.
  destruct (audioSrc_eqb (Some u) next) eqn:E.
  - apply audioSrc_eqb_eq in E. congruence.
  - now rewrite Hu.
Qed.

(** X12: when a file is selected while another one holds a non-empty
    object URL, that URL is revoked twice, once by [handleFileChange] and
    once more by the effect cleanup of the commit; a reset revokes it
    once, through the cleanup alone. *)
Theorem superseded_url_revoked (s : AppState) (first : File)
  (rest : list File) (url u : jsstring) :
  audioSrc s = Some u -> truthy u = true -> url <> u ->
  size first <= 52428800 ->
  revocations (commit s (SelectFiles (Some (first :: rest)) url)) = [u; u] /\
  revocations (commit s ClickReset) = [u].
Proof.
  intros Ha Hu Hne Hsize. unfold commit, dispatch. cbn [handler].
  rewrite !revocations_app, Ha. split.
  - rewrite cleanup_changed; trivial.
    + unfold handleFileChange.
      replace (maxFileSize <? size first) with false
        by (symmetry; apply N.ltb_ge; exact Hsize).
      rewrite Ha. cbn [truthy_opt]. rewrite Hu. reflexivity.
    + unfold handleFileChange.
      replace (maxFileSize <? size first) with false
        by (symmetry; apply N.ltb_ge; exact Hsize).
      rewrite Ha. cbn [truthy_opt]. rewrite Hu. cbn. congruence.
  - rewrite cleanup_changed; trivial. discriminate.
Qed.

Lemma superseded_url_revoked_witness :
  revocations
    (commit (mkState (Some (mkFile (lit "song.mp3") 2000000))
               (Some (lit "blob:1")) IDLE selectPrompt [] None 0)
       (SelectFiles (Some [mkFile (lit "other.mp3") 3000000]) (lit "blob:2")))
  = [lit "blob:1"; lit "blob:1"].
Proof.
  apply (superseded_url_revoked
           (mkState (Some (mkFile (lit "song.mp3") 2000000))
              (Some (lit "blob:1")) IDLE selectPrompt [] None 0)
           (mkFile (lit "other.mp3") 3000000) [] (lit "blob:2") (lit "blob:1"));
    try reflexivity; discriminate.
Defined.

Lemma in_revocations (u : jsstring) (acts : list Action) :
  In (RevokeObjectURL u) acts -> In u (revocations acts).
Proof.
  induction acts as [|x r IH]; [contradiction|].
  intros [->|H]; [now left|].
  destruct x; cbn; auto.
Qed.

(** A handler stores an object URL only as the last value of [audioSrc]. *)
Lemma stored_url_is_final (s : AppState) (ev : UserEvent) (u : jsstring) :
  In (SetAudioSrc (Some u)) (actions (handler s ev)) ->
  audioSrc (dispatch s ev) = Some u.
Proof.
  unfold dispatch. destruct ev as [files url|env|]; cbn [handler].
  - unfold handleFileChange.
    destruct files as [[|first rest]|];
      [ | destruct (maxFileSize <? size first);
          [ | destruct (audioSrc s) as [[|u0 u1]|] ] | ];
      cbn; intros H;
      repeat (destruct H as [H|H]; try discriminate H); try contradiction;
      now injection H as <-.
  - destruct (file s) as [f|] eqn:Hf;
      [|rewrite (handleSubmit_no_file s env Hf); contradiction].
    destruct (run_cases env)
      as [(result & text & Hr & Hg) | [(re & Hr) | (result & reason & Hr & Hg)]];
      [ rewrite (submit_actions_success s f env Hf result text Hr Hg)
      | rewrite (submit_actions_read_failed s f env Hf re Hr)
      | rewrite (submit_actions_gen_rejected s f env Hf result reason Hr Hg) ];
      cbn; intros H;
      repeat (destruct H as [H|H]; try discriminate H); contradiction.
  - cbn. intros H.
    repeat (destruct H as [H|H]; try discriminate H). contradiction.
Qed.

(** X13: no object URL is leaked: at any point of a session, every
    non-empty URL that was ever stored in [audioSrc] is either the one
    currently held or has been revoked. *)
Theorem no_object_url_leak (s : AppState) (log : list Action) (u : jsstring) :
  session s log ->
  In (SetAudioSrc (Some u)) log -> truthy u = true ->
  audioSrc s = Some u \/ In u (revocations log).
Proof.
  intros Hs; revert u. induction Hs as [|s log ev Hs IH Hu]; intros u Hin Ht.
  - contradiction.
  - rewrite revocations_app. apply in_app_or in Hin as [Hin|Hin].
    + destruct (IH u Hin Ht) as [Ha|Hr].
      * destruct (audioSrc_eqb (audioSrc s) (audioSrc (dispatch s ev))) eqn:E.
        -- apply audioSrc_eqb_eq in E. left. congruence.
        -- right. apply in_or_app. right. unfold commit.
           rewrite revocations_app. apply in_or_app. right.
           rewrite Ha, cleanup_changed; [now left|exact Ht|].
           intros Hn. rewrite Ha, Hn in E.
           assert (audioSrc_eqb (Some u) (Some u) = true)
             by now apply audioSrc_eqb_eq.
           congruence.
      * right. apply in_or_app. now left.
    + unfold commit in Hin. apply in_app_or in Hin as [Hin|Hin].
      * left. now apply stored_url_is_final.
      * exfalso. unfold audioSrcCleanup in Hin.
        destruct (audioSrc_eqb _ _); [contradiction|].
        destruct (audioSrc s) as [v|]; [|contradiction].
        destruct (truthy v); [|contradiction].
        destruct Hin as [Hin|[]]. discriminate Hin.
Qed.

Lemma no_object_url_leak_witness :
  In (lit "blob:1")
    (revocations
       (([] ++ commit initialState
                 (SelectFiles (Some [mkFile (lit "song.mp3") 2000000])
                    (lit "blob:1")))
          ++ commit (dispatch initialState
                       (SelectFiles (Some [mkFile (lit "song.mp3") 2000000])
                          (lit "blob:1")))
               (SelectFiles (Some [mkFile (lit "other.mp3") 3000000])
                  (lit "blob:2")))).
Proof.
  assert (Hin : In (SetAudioSrc (Some (lit "blob:1")))
                  (([] ++ commit initialState
                            (SelectFiles (Some [mkFile (lit "song.mp3") 2000000])
                               (lit "blob:1")))
                     ++ commit (dispatch initialState
                                  (SelectFiles
                                     (Some [mkFile (lit "song.mp3") 2000000])
                                     (lit "blob:1")))
                          (SelectFiles (Some [mkFile (lit "other.mp3") 3000000])
                             (lit "blob:2"))))
    by (vm_compute; tauto).
  destruct (no_object_url_leak _ _ (lit "blob:1")
              (session_event _ _
                 (SelectFiles (Some [mkFile (lit "other.mp3") 3000000])
                    (lit "blob:2"))
                 (session_event _ _
                    (SelectFiles (Some [mkFile (lit "song.mp3") 2000000])
                       (lit "blob:1"))
                    session_start eq_refl)
                 eq_refl)
              Hin eq_refl) as [H|H].
  - vm_compute in H. discriminate H.
  - exact H.
Defined.

(** ** Between and during runs *)

(** X14: a finished run cannot be resubmitted as it stands: once a run
    started through the TRANSCRIBE button has ended, neither the button
    nor the file input is usable, only the reset button is; the reset
    leads to the initial state exactly, in which the button stays
    unusable until a file is selected again. *)
Theorem finished_run_needs_reset (s : AppState) (env : RunEnv) :
  usable s TranscribeButton = true ->
  let s' := dispatch s (ClickTranscribe env) in
  usable s' TranscribeButton = false /\ usable s' FileInput = false /\
  usable s' ResetButton = true /\
  dispatch s' ClickReset = initialState /\
  usable initialState TranscribeButton = false.
Proof.
  intros Hu. destruct (usable_TranscribeButton s Hu) as (_ & f & Hf).
  cbv zeta.
  change (dispatch s (ClickTranscribe env))
    with (run s (actions (handleSubmit s env))).
  destruct (run_cases env)
    as [(result & text & Hr & Hg) | [(re & Hr) | (result & reason & Hr & Hg)]];
    [ rewrite (submit_final_success s f env Hf result text Hr Hg)
    | rewrite (submit_final_read_failed s f env Hf re Hr)
    | rewrite (submit_final_gen_rejected s f env Hf result reason Hr Hg) ];
    repeat split.
Qed.

Lemma finished_run_needs_reset_witness :
  usable (dispatch (mkState (Some (mkFile (lit "song.mp3") 2000000))
                      (Some (lit "blob:1")) IDLE selectPrompt [] None 0)
            (ClickTranscribe
               (mkEnv (Loaded (lit "data:audio/mpeg;base64,QUJD"))
                  (GenRejected (ThrownError (lit "quota exceeded"))))))
    TranscribeButton = false.
Proof.
  apply (finished_run_needs_reset
           (mkState (Some (mkFile (lit "song.mp3") 2000000))
              (Some (lit "blob:1")) IDLE selectPrompt [] None 0)
           (mkEnv (Loaded (lit "data:audio/mpeg;base64,QUJD"))
              (GenRejected (ThrownError (lit "quota exceeded"))))).
  reflexivity.
Defined.

(** X15: while a run is suspended (during the read, each delay and the
    remote call) the status is [PROCESSING] and no control is usable: the
    upload form is on the screen with the file input and the button
    disabled, the button reading TRANSCRIBING..., and the progress line
    shown; so no second run, file change or reset can start before the
    run has ended. *)
Theorem nothing_usable_while_suspended (c : AppState) (f : File) (env : RunEnv) :
  file c = Some f ->
  Forall (fun st =>
            status st = PROCESSING /\
            (forall k, usable st k = false) /\
            exists browse fname,
              App st = UploadView browse fname true (lit "TRANSCRIBING...") true
                         (Some (statusMessage st, progress st)))
    (suspended_in c (actions (handleSubmit c env))).
Proof.
  intros Hf.
  destruct (run_cases env)
    as [(result & text & Hr & Hg) | [(re & Hr) | (result & reason & Hr & Hg)]];
    [ rewrite (submit_actions_success c f env Hf result text Hr Hg)
    | rewrite (submit_actions_read_failed c f env Hf re Hr)
    | rewrite (submit_actions_gen_rejected c f env Hf result reason Hr Hg) ];
    cbn -[lit App usable]; rewrite Hf; repeat constructor;
    try (intros []; reflexivity);
    unfold App; cbn -[lit]; do 2 eexists; reflexivity.
Qed.

Lemma nothing_usable_while_suspended_witness :
  List.length (suspended_in
            (mkState (Some (mkFile (lit "song.mp3") 2000000))
               (Some (lit "blob:1")) IDLE selectPrompt [] None 0)
            (actions (handleSubmit
                        (mkState (Some (mkFile (lit "song.mp3") 2000000))
                           (Some (lit "blob:1")) IDLE selectPrompt [] None 0)
                        (mkEnv (Loaded (lit "data:audio/mpeg;base64,QUJD"))
                           (GenResponse (lit "Walking on sunshine"))))))
  = 5%nat /\
  Forall (fun st => status st = PROCESSING)
    (suspended_in
       (mkState (Some (mkFile (lit "song.mp3") 2000000))
          (Some (lit "blob:1")) IDLE selectPrompt [] None 0)
       (actions (handleSubmit
                   (mkState (Some (mkFile (lit "song.mp3") 2000000))
                      (Some (lit "blob:1")) IDLE selectPrompt [] None 0)
                   (mkEnv (Loaded (lit "data:audio/mpeg;base64,QUJD"))
                      (GenResponse (lit "Walking on sunshine")))))).
Proof.
  split; [reflexivity|].
  eapply Forall_impl;
    [|apply (nothing_usable_while_suspended
               (mkState (Some (mkFile (lit "song.mp3") 2000000))
                  (Some (lit "blob:1")) IDLE selectPrompt [] None 0)
               (mkFile (lit "song.mp3") 2000000)
               (mkEnv (Loaded (lit "data:audio/mpeg;base64,QUJD"))
                  (GenResponse (lit "Walking on sunshine")))
               eq_refl)].
  intros st H. exact (proj1 H).
Defined.
